(** * json-versioned: versioned envelopes and the migration chain

    A shallow embedding of [src/index.ts].  The closure returned by
    [createVersioned] captures two variables, [_version] and [_migrations];
    they are the fields of the record [Codec], and every method of the
    returned object is a function of that record.  Methods that assign to a
    captured variable run in the state-and-exception monad [M]; the two
    methods that only read them are plain functions of the [Codec].

    JavaScript numbers are embedded as the integers among them, in [Z].
    The source does arithmetic on versions in three places: [to - 1] in the
    builder, [toVersion - 1] in [createVersioned] and [version++] in the
    loop.  The definitions of the first part use the exact operations of
    [Z], which are those of the runtime on integers of absolute value up to
    2^53; the theorems stated with them either use no arithmetic or keep the
    versions in that range.  The module [Double] embeds the same functions
    with every result rounded to the nearest double, as the runtime does,
    so that they cover every integer-valued number; the loop, which then
    need not end, takes its fuel as an argument.

    The calls to [console.log] in [versionedDeserialize] have no effect on
    the codec or on the value returned and are left out.  Of the class
    decorator [Versioned] the two codecs it makes and its constructor are
    embedded; the methods of its class hand every call to the codec of the
    object.  The mixin [WithVersioning] only declares fields and is not
    embedded. *)

From Stdlib Require Import PrimFloat SpecFloat FloatOps Uint63.
From stdpp Require Import gmap strings list.

Local Open Scope Z_scope.
Set Warnings "-register-all".

(** ** Values, exceptions and the runtime *)

(** The values [JSON.parse] can return, together with [undefined] (the value
    of a property that is not there).  The properties of an object are kept
    in insertion order; a key occurs once. *)
Inductive JSValue : Type :=
  | JSUndefined
  | JSNull
  | JSBool (b : bool)
  | JSNumber (n : Z)
  | JSString (s : string)
  | JSArray (elements : list JSValue)
  | JSObject (properties : list (string * JSValue)).

(** The exceptions a call can end with.  [SyntaxError] and [TypeError] come
    from the runtime ([JSON.parse], a property read on [null]); the other
    three are the [new Error(...)] of the source, told apart by their message
    and carrying the values the message interpolates:
    - [InvalidMigrationRange from to v]:
      "Invalid migration: from->to must be less than current version v";
    - [FutureVersion stored v]:
      "Cannot deserialize data from version stored with current version v";
    - [MissingMigration version]: "Missing migration for version version". *)
Inductive Error : Type :=
  | SyntaxError
  | TypeError
  | InvalidMigrationRange (from to current : Z)
  | FutureVersion (stored : JSValue) (current : Z)
  | MissingMigration (version : JSValue).

Inductive Result (A : Type) : Type :=
  | Ok (a : A)
  | Throw (e : Error).
Arguments Ok {A} a.
Arguments Throw {A} e.

(** [type MigrationFn = (data: any) => any], a pure and total transform. *)
Abbreviation MigrationFn := (JSValue -> JSValue).

(** [interface MigrationMetadata { toVersion; transform }]. *)
Module MigrationMetadata.
Record t : Type := mk { toVersion : Z; transform : MigrationFn }.
End MigrationMetadata.

(** The captured variables of one [createVersioned] closure. *)
Record Codec : Type := mkCodec {
  _version : Z;
  _migrations : gmap Z MigrationFn
}.

(** ** The state-and-exception monad of the mutating methods *)

Definition M (A : Type) : Type := Codec -> Result A * Codec.

Definition ret {A} (a : A) : M A := fun c => (Ok a, c).

Definition throw {A} (e : Error) : M A := fun c => (Throw e, c).

Definition bind {A B} (m : M A) (k : A -> M B) : M B :=
  fun c =>
    match m c with
    | (Ok a, c') => k a c'
    | (Throw e, c') => (Throw e, c')
    end.

Definition gets {A} (f : Codec -> A) : M A := fun c => (Ok (f c), c).

Definition modify (f : Codec -> Codec) : M unit := fun c => (Ok tt, f c).

Declare Scope codec_scope.
Delimit Scope codec_scope with codec.
Notation "'let*' x ':=' m 'in' k" := (bind m (fun x => k))
  (at level 10, x name, m at level 100, k at level 200) : codec_scope.

(** ** Registration *)

(** [_migrations.set(key, fn)]. *)
Definition Map_set (key : Z) (fn : MigrationFn) (c : Codec) : Codec :=
  {| _version := _version c; _migrations := <[key := fn]> (_migrations c) |}.

(** [interface IMigrationTransformStep { withTransform(fn): void }]. *)
Record IMigrationTransformStep : Type := {
  withTransform : MigrationFn -> M unit
}.

(** The test of [withTransform]:
    [from >= _version || to > _version || from < 1 || to < 1]. *)
Definition out_of_range (from to current : Z) : bool :=
  (from >=? current) || (to >? current) || (from <? 1) || (to <? 1).

(** [versionedMethods.migrations], the builder object.  [to - 1] is the
    exact difference: that of the runtime for [to] from -2^53 + 1 up to
    2^53 (see [Double.migrations] for every [to]). *)
Module migrations.
Definition toVersion (to : Z) : IMigrationTransformStep :=
  {| withTransform := fun fn =>
       (let from := to - 1 in
        let* current := gets _version in
        if out_of_range from to current
        then throw (InvalidMigrationRange from to current)
        else modify (Map_set from fn))%codec |}.
End migrations.

(** [addMigration(toVersion, migrationFn)]: the parameter the interface
    [IVersioned] calls [fromVersion] is passed on as the target version. *)
Definition addMigration (toVersion : Z) (migrationFn : MigrationFn) : M unit :=
  withTransform (migrations.toVersion toVersion) migrationFn.

(** [setCurrentVersion(version)]. *)
Definition setCurrentVersion (version : Z) : M unit :=
  modify (fun c => {| _version := version; _migrations := _migrations c |}).

(** ** Construction *)

(** The classes the decorators are applied to are told apart by identity. *)
Abbreviation Target := positive.

(** [Migration(toVersion, transform)(target)]: append to the list kept for
    [target] in [migrationMetadataMap]. *)
Definition Migration (toVersion : Z) (transform : MigrationFn) (target : Target)
    (migrationMetadataMap : gmap Target (list MigrationMetadata.t))
    : gmap Target (list MigrationMetadata.t) :=
  let existingMigrations := default [] (migrationMetadataMap !! target) in
  <[target := existingMigrations ++ [MigrationMetadata.mk toVersion transform]]>
    migrationMetadataMap.

(** The [forEach] of [createVersioned]: one [_migrations.set] per entry, in
    the order of the list.  [toVersion - 1] is the exact difference (see
    [Double.seed] for the rounded one). *)
Definition seed (existingMigrations : list MigrationMetadata.t)
    (registry : gmap Z MigrationFn) : gmap Z MigrationFn :=
  foldl (fun m md =>
           <[MigrationMetadata.toVersion md - 1 := MigrationMetadata.transform md]> m)
        registry existingMigrations.

(** [createVersioned(version, target?)]; [version || 1] replaces 0 by 1. *)
Definition createVersioned (version : Z) (target : option Target)
    (migrationMetadataMap : gmap Target (list MigrationMetadata.t)) : Codec :=
  {| _version := if decide (version = 0) then 1 else version;
     _migrations :=
       match target with
       | Some t => seed (default [] (migrationMetadataMap !! t)) ∅
       | None => ∅
       end |}.

(** ** Reading an envelope *)

(** What a run of [versionedDeserialize] ends with.  [OutOfFuel] belongs to
    the embedding of the [for] loop only; [_applyMigrations_total] shows
    that no run ends there. *)
Inductive Outcome : Type :=
  | Returns (value : JSValue)
  | Throws (e : Error)
  | OutOfFuel.

(** A run: the registry keys whose transform was called, in the order of the
    calls, and the outcome. *)
Definition Run : Type := list Z * Outcome.

(** The parts of the runtime the two reading methods call.  [JSON_parse] is
    [None] where [JSON.parse] throws its [SyntaxError].  [ToNumber_runtime] is
    the conversion to a number that [<] and [>] apply to a string, an array
    or an object ([None] stands for [NaN]); on an object it can throw. *)
Class Runtime : Type := {
  JSON_parse : string -> option JSValue;
  JSON_stringify : JSValue -> string;
  ToNumber_runtime : JSValue -> Result (option Z)
}.

(** The own property [key] of a parsed object. *)
Fixpoint own_property (key : string) (properties : list (string * JSValue))
    : option JSValue :=
  match properties with
  | [] => None
  | (k, v) :: rest => if String.eqb k key then Some v else own_property key rest
  end.

(** [o.key] for the two keys the source reads, [version] and [data]: a
    [TypeError] on [null] and [undefined]; on any other value that has no
    such own property the read goes to the prototype, which has neither. *)
Definition Get (o : JSValue) (key : string) : Result JSValue :=
  match o with
  | JSUndefined | JSNull => Throw TypeError
  | JSObject properties => Ok (default JSUndefined (own_property key properties))
  | _ => Ok JSUndefined
  end.

(** [x === n] for a number [n]. *)
Definition strict_equal (x : JSValue) (n : Z) : bool :=
  match x with
  | JSNumber m => m =? n
  | _ => false
  end.

Section Reading.
Context `{!Runtime}.

(** The number a value counts as in a comparison with a number; [None] is
    [NaN].  What a string, an array or an object converts to is the
    runtime's to say. *)
Definition ToNumber (x : JSValue) : Result (option Z) :=
  match x with
  | JSUndefined => Ok None
  | JSNull => Ok (Some 0)
  | JSBool b => Ok (Some (if b then 1 else 0))
  | JSNumber n => Ok (Some n)
  | JSString _ | JSArray _ | JSObject _ => ToNumber_runtime x
  end.

(** [x > n] and [x < n] for a number [n]; a comparison with [NaN] is
    false. *)
Definition greater_than (x : JSValue) (n : Z) : Result bool :=
  match ToNumber x with
  | Ok (Some m) => Ok (n <? m)
  | Ok None => Ok false
  | Throw e => Throw e
  end.

Definition less_than (x : JSValue) (n : Z) : Result bool :=
  match ToNumber x with
  | Ok (Some m) => Ok (m <? n)
  | Ok None => Ok false
  | Throw e => Throw e
  end.

(** The object literal [{ version: _version, data: data }]. *)
Definition VersionedData (version : Z) (data : JSValue) : JSValue :=
  JSObject [("version"%string, JSNumber version); ("data"%string, data)].

(** [versionedSerialize(data)]. *)
Definition versionedSerialize (c : Codec) (data : JSValue) : string :=
  let versionedData := VersionedData (_version c) data in
  JSON_stringify versionedData.

(** The [for] loop of [_applyMigrations] once [version] is a number:
    [fuel] bounds the iterations left, [calls] records the keys already
    applied.  [version + 1] is the exact sum: that of [version++] while the
    versions stay within 2^53 (see [Double.walk] beyond). *)
Fixpoint walk (c : Codec) (fuel : nat) (version : Z) (currentData : JSValue)
    (calls : list Z) : Run :=
  if version <? _version c then
    match _migrations c !! version with
    | None => (calls, Throws (MissingMigration (JSNumber version)))
    | Some migration =>
        match fuel with
        | O => (calls, OutOfFuel)
        | S fuel' =>
            walk c fuel' (version + 1) (migration currentData)
                 (calls ++ [version])
        end
    end
  else (calls, Returns currentData).

(** [_applyMigrations(data, toVersion)].  The loop variable starts as
    [toVersion], whatever its type.  A number walks upwards, and
    [_version - toVersion] iterations are enough.  Any other value is
    compared once: where it counts as less than [_version] the lookup
    [_migrations.get] finds nothing, every key of the map being a
    number. *)
Definition _applyMigrations (c : Codec) (data : JSValue) (toVersion : JSValue)
    : Run :=
  match toVersion with
  | JSNumber n => walk c (Z.to_nat (_version c - n)) n data []
  | _ =>
      match less_than toVersion (_version c) with
      | Throw e => ([], Throws e)
      | Ok true => ([], Throws (MissingMigration toVersion))
      | Ok false => ([], Returns data)
      end
  end.

(** [versionedDeserialize(json)]. *)
Definition versionedDeserialize (c : Codec) (json : string) : Run :=
  match JSON_parse json with
  | None => ([], Throws SyntaxError)
  | Some parsed =>
      match Get parsed "version" with
      | Throw e => ([], Throws e)
      | Ok parsed_version =>
          match greater_than parsed_version (_version c) with
          | Throw e => ([], Throws e)
          | Ok true => ([], Throws (FutureVersion parsed_version (_version c)))
          | Ok false =>
              match Get parsed "data" with
              | Throw e => ([], Throws e)
              | Ok parsed_data =>
                  if strict_equal parsed_version (_version c)
                  then ([], Returns parsed_data)
                  else _applyMigrations c parsed_data parsed_version
              end
          end
      end
  end.

(** [json] parses to a value whose [version] property is the number
    [version] and whose [data] property is [data]. *)
Definition decodes (json : string) (version : Z) (data : JSValue) : Prop :=
  exists parsed,
    JSON_parse json = Some parsed /\
    Get parsed "version" = Ok (JSNumber version) /\
    Get parsed "data" = Ok data.

(** A value that [JSON.stringify] and [JSON.parse] carry across
    unchanged. *)
Definition serializable (x : JSValue) : Prop :=
  JSON_parse (JSON_stringify x) = Some x.

End Reading.






(** ** A runtime given by a table

    Finitely many observations of [JSON.parse] and [JSON.stringify], for the
    examples: a text that is not in the table is rejected, and so is a value
    that is not (it prints as the empty text).  No example compares a
    string, an array or an object with a number; the table answers [NaN]
    there. *)

Fixpoint JSValue_eqb (x y : JSValue) : bool :=
  match x, y with
  | JSUndefined, JSUndefined => true
  | JSNull, JSNull => true
  | JSBool a, JSBool b => Bool.eqb a b
  | JSNumber a, JSNumber b => a =? b
  | JSString a, JSString b => String.eqb a b
  | JSArray l, JSArray l' =>
      (fix all2 (l l' : list JSValue) : bool :=
         match l, l' with
         | [], [] => true
         | a :: l, b :: l' => JSValue_eqb a b && all2 l l'
         | _, _ => false
         end) l l'
  | JSObject l, JSObject l' =>
      (fix all2 (l l' : list (string * JSValue)) : bool :=
         match l, l' with
         | [], [] => true
         | (j, a) :: l, (k, b) :: l' =>
             String.eqb j k && JSValue_eqb a b && all2 l l'
         | _, _ => false
         end) l l'
  | _, _ => false
  end.

Fixpoint table_parse (table : list (string * JSValue)) (json : string)
    : option JSValue :=
  match table with
  | [] => None
  | (text, value) :: rest =>
      if String.eqb text json then Some value else table_parse rest json
  end.

Fixpoint table_stringify (table : list (string * JSValue)) (value : JSValue)
    : string :=
  match table with
  | [] => EmptyString
  | (text, v) :: rest =>
      if JSValue_eqb v value then text else table_stringify rest value
  end.

Definition table_runtime (table : list (string * JSValue)) : Runtime :=
  {| JSON_parse := table_parse table;
     JSON_stringify := table_stringify table;
     ToNumber_runtime := fun _ => Ok None |}.

(** The sample texts.  [dq] is the double quote. *)
Definition dq : string := String (Ascii.ascii_of_nat 34) EmptyString.

Definition key (name : string) : string := dq +:+ name +:+ dq +:+ ":".

(** [{"version":V,"data":7}] for V = 1, 2, 3, 5. *)
Definition text_v1 : string := "{" +:+ key "version" +:+ "1," +:+ key "data" +:+ "7}".
Definition text_v2 : string := "{" +:+ key "version" +:+ "2," +:+ key "data" +:+ "7}".
Definition text_v3 : string := "{" +:+ key "version" +:+ "3," +:+ key "data" +:+ "7}".
Definition text_v5 : string := "{" +:+ key "version" +:+ "5," +:+ key "data" +:+ "7}".
(** [{"version":3,"data":7,"extra":true}]. *)
Definition text_extra : string :=
  "{" +:+ key "version" +:+ "3," +:+ key "data" +:+ "7," +:+ key "extra" +:+ "true}".
(** The text [null]. *)
Definition text_null : string := "null".

Definition samples : list (string * JSValue) :=
  [ (text_v1, VersionedData 1 (JSNumber 7));
    (text_v2, VersionedData 2 (JSNumber 7));
    (text_v3, VersionedData 3 (JSNumber 7));
    (text_v5, VersionedData 5 (JSNumber 7));
    (text_extra,
     JSObject [("version"%string, JSNumber 3); ("data"%string, JSNumber 7);
               ("extra"%string, JSBool true)]);
    (text_null, JSNull) ].

Definition sample_runtime : Runtime := table_runtime samples.

(** Two transforms that can be told apart, and the codecs of the examples. *)
Definition add_ten : MigrationFn :=
  fun data => match data with JSNumber n => JSNumber (n + 10) | _ => data end.
Definition times_two : MigrationFn :=
  fun data => match data with JSNumber n => JSNumber (n * 2) | _ => data end.

(** The decorators [@Migration(5, add_ten)] and [@Migration(1, times_two)] on
    the class 1. *)
Definition sample_metadata : gmap Target (list MigrationMetadata.t) :=
  Migration 5 add_ten 1%positive (Migration 1 times_two 1%positive ∅).

(** [createVersioned(3, target)] for that class. *)
Definition codec3_seeded : Codec :=
  createVersioned 3 (Some 1%positive) sample_metadata.

(** [createVersioned(3)] with no migration. *)
Definition codec3 : Codec := createVersioned 3 None ∅.
(** [codec3] after [toVersion(2).withTransform(add_ten)] and
    [toVersion(3).withTransform(times_two)]. *)
Definition codec3_full : Codec :=
  Map_set 2 times_two (Map_set 1 add_ten codec3).
(** [codec3] after [toVersion(3).withTransform(times_two)] alone. *)
Definition codec3_gap : Codec := Map_set 2 times_two codec3.
(** [codec3] after [toVersion(2).withTransform(add_ten)] alone, and what
    [toVersion(3).withTransform(add_ten)] makes of it. *)
Definition codec3_low : Codec := Map_set 1 add_ten codec3.
Definition codec3_rewritten : Codec := Map_set 2 add_ten codec3_low.


(** ** The class decorator *)

(** [list.forEach(callback)] for a callback that can throw: the exception
    ends the iteration and leaves what the earlier calls have done. *)
Fixpoint forEach {A} (l : list A) (callback : A -> M unit) : M unit :=
  match l with
  | [] => ret tt
  | x :: rest => bind (callback x) (fun _ => forEach rest callback)
  end.

(** What [Versioned(version)(target)] returns, as far as versioning goes.
    The static [versionedDeserialize] is a method of a codec made when the
    decorator is applied: [static_codec].  [construct] is [new] on the
    class, given the metadata map of that moment: the field initializer
    makes [_versionedInstance], the body of the constructor then replays the
    declared migrations through the builder; the result is the codec of the
    new object, or the exception [new] ends with.  [super(...args)] is taken
    to return.  [replay] is the [forEach] of the constructor. *)
Definition replay (declared : list MigrationMetadata.t) : M unit :=
  forEach declared
    (fun md =>
       withTransform (migrations.toVersion (MigrationMetadata.toVersion md))
                     (MigrationMetadata.transform md)).

Record VersionedClass : Type := {
  static_codec : Codec;
  construct : gmap Target (list MigrationMetadata.t) -> Result Codec
}.

Definition Versioned (version : Z) (target : Target)
    (migrationMetadataMap : gmap Target (list MigrationMetadata.t))
    : VersionedClass :=
  {| static_codec := createVersioned version (Some target) migrationMetadataMap;
     construct := fun migrationMetadataMap' =>
       let _versionedInstance :=
         createVersioned version (Some target) migrationMetadataMap' in
       let migrations := default [] (migrationMetadataMap' !! target) in
       match replay migrations _versionedInstance with
       | (Ok _, this) => Ok this
       | (Throw e, _) => Throw e
       end |}.

(** ** Notions the properties are stated with *)

(** Every key of the registry is a source version the builder accepts. *)
Definition registry_in_range (c : Codec) : Prop :=
  forall k, is_Some (_migrations c !! k) -> 1 <= k < _version c.

(** The transforms registered under [keys], applied to [data] one after the
    other in the order of the list. *)
Definition apply_registered (registry : gmap Z MigrationFn) (keys : list Z)
    (data : JSValue) : JSValue :=
  foldl (fun d k => match registry !! k with Some f => f d | None => d end)
        data keys.

(** A declared migration the builder accepts under the version [current]. *)
Definition declared_in_range (current : Z) (md : MigrationMetadata.t) : Prop :=
  out_of_range (MigrationMetadata.toVersion md - 1)
               (MigrationMetadata.toVersion md) current = false.

(** ** More sample texts *)

(** [{}], [[7]], [{"version":null,"data":7}] and [{"version":0,"data":7}]. *)
Definition text_empty : string := "{}".
Definition text_array : string := "[7]".
Definition text_vnull : string :=
  "{" +:+ key "version" +:+ "null," +:+ key "data" +:+ "7}".
Definition text_v0 : string := "{" +:+ key "version" +:+ "0," +:+ key "data" +:+ "7}".

Definition edge_samples : list (string * JSValue) :=
  samples ++
  [ (text_empty, JSObject []);
    (text_array, JSArray [JSNumber 7]);
    (text_vnull, JSObject [("version"%string, JSNull); ("data"%string, JSNumber 7)]);
    (text_v0, VersionedData 0 (JSNumber 7)) ].

Definition edge_runtime : Runtime := table_runtime edge_samples.

(** The decorators [@Migration(3, times_two)] and [@Migration(2, add_ten)] on
    the class 2, and [@Versioned(3)] on it. *)
Definition class2_metadata : gmap Target (list MigrationMetadata.t) :=
  Migration 2 add_ten 2%positive (Migration 3 times_two 2%positive ∅).

Definition class2 : VersionedClass := Versioned 3 2%positive class2_metadata.

(** ** Double-precision arithmetic on versions

    The source computes [to - 1], [toVersion - 1] and [version++] on
    JavaScript numbers, that is on IEEE 754 doubles.  On integers of absolute
    value up to 2^53 these operations are the exact ones of [Z], which the
    definitions above use.  The module [Double] embeds the same functions
    with the result of each operation rounded as the runtime rounds it, for
    every integer-valued double; the lemmas named [..._exact] show that the
    two embeddings agree where the versions stay within 2^53. *)

Definition two53 : Z := 9007199254740992.

(** The integer-valued double nearest to the integer [z]: an integer of
    absolute value at most 2^53 is one; beyond, the significand keeps 53
    bits, and a tie goes to the even significand. *)
Definition double_round (z : Z) : Z :=
  let a := Z.abs z in
  if a <=? two53 then z
  else
    let e := Z.log2 a - 52 in
    let q := a / 2 ^ e in
    let r := a mod 2 ^ e in
    let half := 2 ^ (e - 1) in
    let q' :=
      if r <? half then q
      else if half <? r then q + 1
      else if Z.even q then q else q + 1 in
    Z.sgn z * (q' * 2 ^ e).

(** [z - 1] and [z + 1] (the new value after [z++]) for a double [z]. *)
Definition minus_one (z : Z) : Z := double_round (z - 1).
Definition plus_one (z : Z) : Z := double_round (z + 1).

(** The integers on which doubles have no gap. *)
Definition safe (z : Z) : Prop := - two53 <= z <= two53.

(** The same two operations on the binary64 numbers of Rocq, for a double
    [z] from 0 up to 2^62, to compare [double_round] with. *)
Definition binary64_of_Z (z : Z) : float := PrimFloat.of_uint63 (Uint63.of_Z z).

Definition Z_of_binary64 (x : float) : Z :=
  match Prim2SF x with
  | S754_finite _ m e => if e <? 0 then Z.pos m / 2 ^ (- e) else Z.pos m * 2 ^ e
  | _ => 0
  end.

Definition binary64_minus_one (z : Z) : Z :=
  Z_of_binary64 (PrimFloat.sub (binary64_of_Z z) (binary64_of_Z 1)).

Definition binary64_plus_one (z : Z) : Z :=
  Z_of_binary64 (PrimFloat.add (binary64_of_Z z) (binary64_of_Z 1)).

(** [z] is a double on which [minus_one] and [plus_one] are the binary64
    operations. *)
Definition agrees_with_binary64 (z : Z) : bool :=
  (Z_of_binary64 (binary64_of_Z z) =? z)
  && (minus_one z =? binary64_minus_one z)
  && (plus_one z =? binary64_plus_one z).

(** [n] integers from [start] on, [step] apart. *)
Fixpoint every (step : Z) (start : Z) (n : nat) : list Z :=
  match n with
  | O => []
  | S n' => start :: every step (start + step) n'
  end.

Module Double.

(** [versionedMethods.migrations]. *)
Module migrations.
Definition toVersion (to : Z) : IMigrationTransformStep :=
  {| withTransform := fun fn =>
       (let from := minus_one to in
        let* current := gets _version in
        if out_of_range from to current
        then throw (InvalidMigrationRange from to current)
        else modify (Map_set from fn))%codec |}.
End migrations.

(** [addMigration(toVersion, migrationFn)]. *)
Definition addMigration (toVersion : Z) (migrationFn : MigrationFn) : M unit :=
  withTransform (migrations.toVersion toVersion) migrationFn.

(** The [forEach] of [createVersioned]. *)
Definition seed (existingMigrations : list MigrationMetadata.t)
    (registry : gmap Z MigrationFn) : gmap Z MigrationFn :=
  foldl (fun m md =>
           <[minus_one (MigrationMetadata.toVersion md) :=
               MigrationMetadata.transform md]> m)
        registry existingMigrations.

(** [createVersioned(version, target?)]. *)
Definition createVersioned (version : Z) (target : option Target)
    (migrationMetadataMap : gmap Target (list MigrationMetadata.t)) : Codec :=
  {| _version := if decide (version = 0) then 1 else version;
     _migrations :=
       match target with
       | Some t => seed (default [] (migrationMetadataMap !! t)) ∅
       | None => ∅
       end |}.

(** The [for] loop of [_applyMigrations] on a number.  With [version++]
    rounded the loop need not end, and no number of iterations is enough
    for every input: [fuel] is an argument of the reading functions, and a
    run that ends does so for every [fuel] from some number on. *)
Fixpoint walk (c : Codec) (fuel : nat) (version : Z) (currentData : JSValue)
    (calls : list Z) : Run :=
  if version <? _version c then
    match _migrations c !! version with
    | None => (calls, Throws (MissingMigration (JSNumber version)))
    | Some migration =>
        match fuel with
        | O => (calls, OutOfFuel)
        | S fuel' =>
            walk c fuel' (plus_one version) (migration currentData)
                 (calls ++ [version])
        end
    end
  else (calls, Returns currentData).

(** The versions the loop goes through in its first [n] iterations, and
    the version it has after them. *)
Fixpoint visits (version : Z) (n : nat) : list Z :=
  match n with
  | O => []
  | S n' => version :: visits (plus_one version) n'
  end.

Fixpoint reach (version : Z) (n : nat) : Z :=
  match n with
  | O => version
  | S n' => reach (plus_one version) n'
  end.

Section Reading.
Context `{!Runtime}.

(** [_applyMigrations(data, toVersion)]. *)
Definition _applyMigrations (fuel : nat) (c : Codec) (data : JSValue)
    (toVersion : JSValue) : Run :=
  match toVersion with
  | JSNumber n => walk c fuel n data []
  | _ =>
      match less_than toVersion (_version c) with
      | Throw e => ([], Throws e)
      | Ok true => ([], Throws (MissingMigration toVersion))
      | Ok false => ([], Returns data)
      end
  end.

(** [versionedDeserialize(json)]. *)
Definition versionedDeserialize (fuel : nat) (c : Codec) (json : string) : Run :=
  match JSON_parse json with
  | None => ([], Throws SyntaxError)
  | Some parsed =>
      match Get parsed "version" with
      | Throw e => ([], Throws e)
      | Ok parsed_version =>
          match greater_than parsed_version (_version c) with
          | Throw e => ([], Throws e)
          | Ok true => ([], Throws (FutureVersion parsed_version (_version c)))
          | Ok false =>
              match Get parsed "data" with
              | Throw e => ([], Throws e)
              | Ok parsed_data =>
                  if strict_equal parsed_version (_version c)
                  then ([], Returns parsed_data)
                  else _applyMigrations fuel c parsed_data parsed_version
              end
          end
      end
  end.

End Reading.

End Double.

(** ** Samples beyond 2^53 and of other shapes *)

(** [{"version":9007199254740992,"data":7}], [{"version":3}],
    [{"version":-1,"data":7}], [{"version":true,"data":7}] and
    [{"version":"abc","data":7}].  The last is the one sample with a string
    as version: [abc] converts to [NaN], which is what the table answers. *)
Definition text_v2p53 : string :=
  "{" +:+ key "version" +:+ "9007199254740992," +:+ key "data" +:+ "7}".
Definition text_nodata : string := "{" +:+ key "version" +:+ "3}".
Definition text_negative : string :=
  "{" +:+ key "version" +:+ "-1," +:+ key "data" +:+ "7}".

Definition text_vtrue : string :=
  "{" +:+ key "version" +:+ "true," +:+ key "data" +:+ "7}".
Definition text_vabc : string :=
  "{" +:+ key "version" +:+ dq +:+ "abc" +:+ dq +:+ "," +:+ key "data" +:+ "7}".

Definition shape_samples : list (string * JSValue) :=
  edge_samples ++
  [ (text_v2p53, VersionedData two53 (JSNumber 7));
    (text_nodata, JSObject [("version"%string, JSNumber 3)]);
    (text_negative, VersionedData (-1) (JSNumber 7));
    (text_vtrue,
     JSObject [("version"%string, JSBool true); ("data"%string, JSNumber 7)]);
    (text_vabc,
     JSObject [("version"%string, JSString "abc"); ("data"%string, JSNumber 7)]) ].

Definition shape_runtime : Runtime := table_runtime shape_samples.

(** [createVersioned(2^53 + 2)] after
    [toVersion(2^53 + 2).withTransform(add_ten)]. *)
Definition codec_above : Codec :=
  (withTransform (Double.migrations.toVersion (two53 + 2)) add_ten
     (Double.createVersioned (two53 + 2) None ∅)).2.

(** [createVersioned(2^54)]. *)
Definition codec_2p54 : Codec := Double.createVersioned (2 * two53) None ∅.



(** * Properties *)

(** ** Registration *)

Lemma out_of_range_spec from to current :
  out_of_range from to current = true <->
  from >= current \/ to > current \/ from < 1 \/ to < 1.
Proof.
  unfold out_of_range.
  rewrite !orb_true_iff, Z.geb_le, Z.gtb_lt, !Z.ltb_lt. lia.
Qed.

Lemma withTransform_unfold to fn c :
  withTransform (migrations.toVersion to) fn c =
  if out_of_range (to - 1) to (_version c)
  then (Throw (InvalidMigrationRange (to - 1) to (_version c)), c)
  else (Ok tt, Map_set (to - 1) fn c).
Proof.
  unfold migrations.toVersion, bind, gets, throw, modify. simpl.
  destruct (out_of_range _ _ _); reflexivity.
Qed.

Lemma withTransform_in_range to fn c :
  1 <= to - 1 -> to <= _version c ->
  withTransform (migrations.toVersion to) fn c = (Ok tt, Map_set (to - 1) fn c).
Proof.
  intros Hlo Hhi. rewrite withTransform_unfold.
  destruct (out_of_range _ _ _) eqn:E; [|reflexivity].
  apply out_of_range_spec in E. lia.
Qed.

Lemma Map_set_twice k f g c : Map_set k g (Map_set k f c) = Map_set k g c.
Proof. unfold Map_set. simpl. by rewrite insert_insert_eq. Qed.

(** ** The forward walk *)

Section Walk.
Context `{!Runtime}.

Lemma walk_unfold c fuel version data calls :
  walk c fuel version data calls =
    if version <? _version c then
      match _migrations c !! version with
      | None => (calls, Throws (MissingMigration (JSNumber version)))
      | Some migration =>
          match fuel with
          | O => (calls, OutOfFuel)
          | S fuel' =>
              walk c fuel' (version + 1) (migration data) (calls ++ [version])
          end
      end
    else (calls, Returns data).
Proof. by destruct fuel. Qed.

Lemma walk_total c fuel version data calls :
  (Z.to_nat (_version c - version) <= fuel)%nat ->
  (walk c fuel version data calls).2 <> OutOfFuel.
Proof.
  revert version data calls.
  induction fuel as [|fuel IH]; intros version data calls Hfuel;
    rewrite walk_unfold;
    (destruct (version <? _version c) eqn:E; [apply Z.ltb_lt in E|done]).
  - lia.
  - destruct (_migrations c !! version); [|done].
    apply IH. lia.
Qed.


(** The walk stops at the first key that is not registered, having called
    the transforms below it, each once and in increasing order. *)
Lemma walk_first_gap c fuel version v data calls :
  version <= v < _version c ->
  _migrations c !! v = None ->
  (Z.to_nat (v - version) <= fuel)%nat ->
  exists v0,
    version <= v0 <= v /\
    _migrations c !! v0 = None /\
    (forall u, version <= u < v0 -> is_Some (_migrations c !! u)) /\
    walk c fuel version data calls =
      (calls ++ seqZ version (v0 - version),
       Throws (MissingMigration (JSNumber v0))).
Proof.
  revert version data calls.
  induction fuel as [|fuel IH]; intros version data calls Hv Hnone Hfuel.
  - assert (version = v) as -> by lia.
    exists v. split; [lia|]. split; [done|]. split; [intros; lia|].
    rewrite walk_unfold. destruct (v <? _version c) eqn:E.
    + rewrite Hnone, Z.sub_diag. simpl. by rewrite app_nil_r.
    + apply Z.ltb_ge in E. lia.
  - rewrite walk_unfold. destruct (version <? _version c) eqn:E;
      [|apply Z.ltb_ge in E; lia].
    destruct (_migrations c !! version) as [migration|] eqn:Hm.
    + assert (version <> v) by congruence.
      destruct (IH (version + 1) (migration data) (calls ++ [version]))
        as (v0 & Hv0 & Hnone0 & Hbelow & Hwalk); [lia|done|lia|].
      exists v0. split; [lia|]. split; [done|]. split.
      * intros u Hu. destruct (decide (u = version)) as [->|]; [by eexists|].
        apply Hbelow. lia.
      * rewrite Hwalk, <- app_assoc. simpl.
        rewrite (seqZ_cons version (v0 - version)) by lia.
        do 4 f_equal; lia.
    + exists version. split; [lia|]. split; [done|]. split; [intros; lia|].
      by rewrite Z.sub_diag, app_nil_r.
Qed.

(** Below a key [target] with every key before it registered, the walk
    calls the transforms of these keys and arrives at [target]. *)
Lemma walk_reaches c fuel version target data calls :
  version <= target <= _version c ->
  (forall u, version <= u < target -> is_Some (_migrations c !! u)) ->
  (Z.to_nat (_version c - version) <= fuel)%nat ->
  exists data',
    walk c fuel version data calls =
      walk c (fuel - Z.to_nat (target - version)) target data'
           (calls ++ seqZ version (target - version)).
Proof.
  revert version data calls.
  induction fuel as [|fuel IH]; intros version data calls Ht Hreg Hfuel.
  - assert (version = target) as -> by lia.
    exists data. by rewrite Z.sub_diag, app_nil_r.
  - destruct (decide (version = target)) as [->|Hne].
    { exists data. by rewrite Z.sub_diag, app_nil_r. }
    rewrite walk_unfold.
    destruct (version <? _version c) eqn:E; [|apply Z.ltb_ge in E; lia].
    destruct (Hreg version) as [migration Hm]; [lia|]. rewrite Hm.
    destruct (IH (version + 1) (migration data) (calls ++ [version]))
      as [data' Hwalk]; [lia|intros; apply Hreg; lia|lia|].
    exists data'. rewrite Hwalk, <- app_assoc. simpl.
    rewrite (seqZ_cons version (target - version)) by lia.
    replace (S fuel - Z.to_nat (target - version))%nat
      with (fuel - Z.to_nat (target - (version + 1)))%nat by lia.
    repeat f_equal; lia.
Qed.

Lemma _applyMigrations_total c data toVersion :
  (_applyMigrations c data toVersion).2 <> OutOfFuel.
Proof.
  unfold _applyMigrations.
  destruct toVersion; try (destruct (less_than _ _) as [[]|]; done).
  by apply walk_total.
Qed.

(** What [versionedDeserialize] does with a decoded envelope. *)
Lemma versionedDeserialize_decoded c json stored data :
  decodes json stored data ->
  versionedDeserialize c json =
    if _version c <? stored
    then ([], Throws (FutureVersion (JSNumber stored) (_version c)))
    else if stored =? _version c
         then ([], Returns data)
         else walk c (Z.to_nat (_version c - stored)) stored data [].
Proof.
  intros (parsed & Hparse & Hversion & Hdata).
  unfold versionedDeserialize, greater_than.
  rewrite Hparse, Hversion, Hdata. simpl.
  by destruct (_version c <? stored).
Qed.

Lemma versionedDeserialize_total c json :
  (versionedDeserialize c json).2 <> OutOfFuel.
Proof.
  unfold versionedDeserialize.
  destruct (JSON_parse json) as [parsed|]; [|done].
  destruct (Get parsed "version") as [parsed_version|]; [|done].
  destruct (greater_than _ _) as [[]|]; try done.
  destruct (Get parsed "data"); [|done].
  destruct (strict_equal _ _); [done|].
  apply _applyMigrations_total.
Qed.

Lemma decodes_VersionedData json version data :
  JSON_parse json = Some (VersionedData version data) ->
  decodes json version data.
Proof. intros Hparse. by exists (VersionedData version data). Qed.

End Walk.

(** ** Double-precision arithmetic *)

Lemma apply_registered_cons registry k keys data f :
  registry !! k = Some f ->
  apply_registered registry (k :: keys) data = apply_registered registry keys (f data).
Proof. intros Hk. unfold apply_registered. simpl. by rewrite Hk. Qed.

Lemma double_round_safe z : safe z -> double_round z = z.
Proof.
  unfold safe, double_round. intros Hz. cbv zeta.
  destruct (Z.abs z <=? two53) eqn:E; [done|].
  apply Z.leb_gt in E. lia.
Qed.

(** On the integers up to 2^53, on the doubles around 2^53, 2^54 and 2^55
    (which are 2, 4 and 8 apart) and on doubles near 2^60 and 2^61,
    [minus_one] and [plus_one] are the subtraction and the addition of
    binary64. *)
Lemma double_round_agrees_with_binary64 :
  forallb agrees_with_binary64
    (every 1 1 300 ++ every 1 (two53 - 300) 301 ++
     every 2 two53 600 ++ every 2 (2 * two53 - 600) 300 ++
     every 4 (2 * two53) 600 ++ every 4 (4 * two53 - 1200) 300 ++
     every 8 (4 * two53) 600 ++
     every 256 (2 ^ 60) 300 ++ every 256 (2 ^ 61 - 256 * 300) 300) = true.
Proof. vm_compute. reflexivity. Qed.

Lemma minus_one_exact z : - two53 < z <= two53 + 1 -> minus_one z = z - 1.
Proof. intros Hz. apply double_round_safe. unfold safe. lia. Qed.

Lemma plus_one_exact z : - two53 - 1 <= z < two53 -> plus_one z = z + 1.
Proof. intros Hz. apply double_round_safe. unfold safe. lia. Qed.

Lemma Double_withTransform_unfold to fn c :
  withTransform (Double.migrations.toVersion to) fn c =
  if out_of_range (minus_one to) to (_version c)
  then (Throw (InvalidMigrationRange (minus_one to) to (_version c)), c)
  else (Ok tt, Map_set (minus_one to) fn c).
Proof.
  unfold Double.migrations.toVersion, bind, gets, throw, modify. simpl.
  destruct (out_of_range _ _ _); reflexivity.
Qed.

Lemma Double_withTransform_exact to fn c :
  - two53 < to <= two53 + 1 ->
  withTransform (Double.migrations.toVersion to) fn c =
  withTransform (migrations.toVersion to) fn c.
Proof.
  intros Hto.
  by rewrite Double_withTransform_unfold, withTransform_unfold, minus_one_exact.
Qed.


Lemma Double_walk_unfold c fuel version data calls :
  Double.walk c fuel version data calls =
    if version <? _version c then
      match _migrations c !! version with
      | None => (calls, Throws (MissingMigration (JSNumber version)))
      | Some migration =>
          match fuel with
          | O => (calls, OutOfFuel)
          | S fuel' =>
              Double.walk c fuel' (plus_one version) (migration data)
                          (calls ++ [version])
          end
      end
    else (calls, Returns data).
Proof. by destruct fuel. Qed.

(** Below 2^53 the two embeddings of the loop are one. *)
Lemma Double_walk_exact c fuel version data calls :
  _version c <= two53 ->
  - two53 - 1 <= version ->
  Double.walk c fuel version data calls = walk c fuel version data calls.
Proof.
  intros HV. revert version data calls.
  induction fuel as [|fuel IH]; intros version data calls Hversion;
    rewrite Double_walk_unfold, walk_unfold; [done|].
  destruct (version <? _version c) eqn:E; [apply Z.ltb_lt in E|done].
  destruct (_migrations c !! version); [|done].
  rewrite plus_one_exact by lia. apply IH. lia.
Qed.

Lemma visits_exact version n :
  - two53 - 1 <= version ->
  version + Z.of_nat n <= two53 ->
  Double.visits version n = seqZ version (Z.of_nat n) /\
  Double.reach version n = version + Z.of_nat n.
Proof.
  revert version. induction n as [|n IH]; intros version Hlo Hhi; simpl.
  - split; [done|lia].
  - rewrite plus_one_exact by lia.
    destruct (IH (version + 1)) as [Hvisits Hreach]; [lia|lia|].
    rewrite Hvisits, Hreach. split; [|lia].
    rewrite (seqZ_cons version) by lia. repeat f_equal; lia.
Qed.

(** A run of the loop that finds every version it goes through registered
    and then leaves the range. *)
Lemma Double_walk_chain c n fuel version data calls :
  (n <= fuel)%nat ->
  Forall (fun k => k < _version c /\ is_Some (_migrations c !! k))
         (Double.visits version n) ->
  _version c <= Double.reach version n ->
  Double.walk c fuel version data calls =
    (calls ++ Double.visits version n,
     Returns (apply_registered (_migrations c) (Double.visits version n) data)).
Proof.
  revert fuel version data calls.
  induction n as [|n IH]; intros fuel version data calls Hfuel Hall Hend;
    rewrite Double_walk_unfold; cbn [Double.visits Double.reach] in *.
  - destruct (version <? _version c) eqn:E; [apply Z.ltb_lt in E; lia|].
    by rewrite app_nil_r.
  - apply Forall_cons in Hall as [[Hlt [migration Hm]] Hall].
    destruct (version <? _version c) eqn:E; [|apply Z.ltb_ge in E; lia].
    rewrite Hm. destruct fuel as [|fuel]; [lia|].
    rewrite IH by (done || lia).
    rewrite (apply_registered_cons _ _ _ _ _ Hm), <- app_assoc. done.
Qed.

(** A run of the loop that finds every version it goes through registered
    up to one, still in the range, that is not. *)
Lemma Double_walk_gap c n fuel version data calls :
  (n <= fuel)%nat ->
  Forall (fun k => k < _version c /\ is_Some (_migrations c !! k))
         (Double.visits version n) ->
  Double.reach version n < _version c ->
  _migrations c !! Double.reach version n = None ->
  Double.walk c fuel version data calls =
    (calls ++ Double.visits version n,
     Throws (MissingMigration (JSNumber (Double.reach version n)))).
Proof.
  revert fuel version data calls.
  induction n as [|n IH]; intros fuel version data calls Hfuel Hall Hlt Hnone;
    rewrite Double_walk_unfold; cbn [Double.visits Double.reach] in *.
  - destruct (version <? _version c) eqn:E; [|apply Z.ltb_ge in E; lia].
    by rewrite Hnone, app_nil_r.
  - apply Forall_cons in Hall as [[Hlt' [migration Hm]] Hall].
    destruct (version <? _version c) eqn:E; [|apply Z.ltb_ge in E; lia].
    rewrite Hm. destruct fuel as [|fuel]; [lia|].
    rewrite IH by (done || lia).
    by rewrite <- app_assoc.
Qed.

(** Where [version++] leaves a registered version below the current one as
    it is, the loop calls its transform again and again. *)
Lemma Double_walk_stuck c version migration fuel data calls :
  version < _version c ->
  _migrations c !! version = Some migration ->
  plus_one version = version ->
  Double.walk c fuel version data calls =
    (calls ++ replicate fuel version, OutOfFuel).
Proof.
  intros Hlt Hm Hstuck. revert data calls.
  induction fuel as [|fuel IH]; intros data calls;
    rewrite Double_walk_unfold;
    (destruct (version <? _version c) eqn:E; [|apply Z.ltb_ge in E; lia]);
    rewrite Hm.
  - by rewrite app_nil_r.
  - rewrite Hstuck, IH, <- app_assoc. done.
Qed.

(** A run of the loop that ends is the same for every greater [fuel]. *)
Lemma Double_walk_fuel c fuel fuel' version data calls :
  (Double.walk c fuel version data calls).2 <> OutOfFuel ->
  (fuel <= fuel')%nat ->
  Double.walk c fuel' version data calls = Double.walk c fuel version data calls.
Proof.
  revert fuel' version data calls.
  induction fuel as [|fuel IH]; intros fuel' version data calls Hends Hle;
    rewrite (Double_walk_unfold c fuel'); rewrite Double_walk_unfold in Hends |- *;
    (destruct (version <? _version c); [|done]);
    (destruct (_migrations c !! version); [|done]); [done|].
  destruct fuel' as [|fuel']; [lia|]. apply IH; [done|lia].
Qed.

Section DoubleReading.
Context `{!Runtime}.

Lemma Double_versionedDeserialize_decoded fuel c json stored data :
  decodes json stored data ->
  Double.versionedDeserialize fuel c json =
    if _version c <? stored
    then ([], Throws (FutureVersion (JSNumber stored) (_version c)))
    else if stored =? _version c
         then ([], Returns data)
         else Double.walk c fuel stored data [].
Proof.
  intros (parsed & Hparse & Hversion & Hdata).
  unfold Double.versionedDeserialize, greater_than.
  rewrite Hparse, Hversion, Hdata. simpl.
  by destruct (_version c <? stored).
Qed.

End DoubleReading.

(** ** The deserialization claims *)

Section Deserialize.
Context `{!Runtime}.

(** C1.  With current version 3 and transforms registered at keys 1 and 2,
    an envelope stored at version 1 is taken through the transform of key 1
    and then through the transform of key 2: these two calls, in this
    order, and no other; the value returned is the result of the second. *)
Theorem sequential_application c json data f12 f23 :
  _version c = 3 ->
  _migrations c !! 1 = Some f12 ->
  _migrations c !! 2 = Some f23 ->
  decodes json 1 data ->
  versionedDeserialize c json = ([1; 2], Returns (f23 (f12 data))).
Proof.
  intros HV H1 H2 Hdec.
  rewrite (versionedDeserialize_decoded _ _ _ _ Hdec), HV.
  change (Z.to_nat (3 - 1)) with 2%nat.
  change (3 <? 1) with false. change (1 =? 3) with false. cbv iota.
  rewrite walk_unfold, HV, H1. change (1 <? 3) with true. cbv iota.
  change (1 + 1) with 2.
  rewrite walk_unfold, HV, H2. change (2 <? 3) with true. cbv iota.
  rewrite walk_unfold, HV. reflexivity.
Qed.

(** C2, amended.  With a stored version below the current one the loop
    goes through the versions the double-precision [version++] produces from
    the stored one; at the first of them, still below the current version,
    that is not registered it throws the missing-migration error for that
    version, having called the transforms of the versions it went through
    before, in that order.  Where the stored version is at least -2^53 and
    the current one at most 2^53, [version++] is exact: if some [v] from the
    stored version up to the current one (not included) is not registered,
    the error is the one for the smallest such [v0], the calls are those of
    the keys from the stored version up to [v0 - 1], each once, and no
    transform registered at [v0] or above is called.  Where [version++] leaves the
    stored version as it is (from 2^53 on) and that version is registered,
    the run neither throws nor returns: it calls that transform without
    end. *)
Theorem missing_migration c json stored data :
  decodes json stored data ->
  (forall n fuel,
     (n <= fuel)%nat ->
     Forall (fun k => k < _version c /\ is_Some (_migrations c !! k))
            (Double.visits stored n) ->
     Double.reach stored n < _version c ->
     _migrations c !! Double.reach stored n = None ->
     Double.versionedDeserialize fuel c json =
       (Double.visits stored n,
        Throws (MissingMigration (JSNumber (Double.reach stored n))))) /\
  (forall v fuel,
     - two53 <= stored ->
     _version c <= two53 ->
     stored <= v < _version c ->
     _migrations c !! v = None ->
     (Z.to_nat (v - stored) <= fuel)%nat ->
     exists v0,
       stored <= v0 <= v /\
       _migrations c !! v0 = None /\
       (forall u, stored <= u < v0 -> is_Some (_migrations c !! u)) /\
       Double.versionedDeserialize fuel c json =
         (seqZ stored (v0 - stored), Throws (MissingMigration (JSNumber v0))) /\
       (forall k, k ∈ seqZ stored (v0 - stored) -> stored <= k < v0)) /\
  (stored < _version c ->
   is_Some (_migrations c !! stored) ->
   plus_one stored = stored ->
   forall fuel,
     Double.versionedDeserialize fuel c json = (replicate fuel stored, OutOfFuel)).
Proof.
  intros Hdec. split; [|split].
  - intros n fuel Hfuel Hall Hlt Hnone.
    assert (stored < _version c) as Hstored.
    { destruct n as [|n]; [done|].
      cbn [Double.visits] in Hall. by apply Forall_cons in Hall as [[? _] _]. }
    rewrite (Double_versionedDeserialize_decoded _ _ _ _ _ Hdec).
    destruct (_version c <? stored) eqn:E1; [apply Z.ltb_lt in E1; lia|].
    destruct (stored =? _version c) eqn:E2; [apply Z.eqb_eq in E2; lia|].
    by rewrite (Double_walk_gap c n).
  - intros v fuel Hlo Hhi Hv Hnone Hfuel.
    destruct (walk_first_gap c fuel stored v data [])
      as (v0 & Hv0 & Hnone0 & Hbelow & Hwalk); [done|done|done|].
    exists v0. split; [done|]. split; [done|]. split; [done|]. split.
    + rewrite (Double_versionedDeserialize_decoded _ _ _ _ _ Hdec).
      destruct (_version c <? stored) eqn:E1; [apply Z.ltb_lt in E1; lia|].
      destruct (stored =? _version c) eqn:E2; [apply Z.eqb_eq in E2; lia|].
      rewrite Double_walk_exact by lia. exact Hwalk.
    + intros k Hk. apply elem_of_seqZ in Hk. lia.
  - intros Hlt [migration Hm] Hstuck fuel.
    rewrite (Double_versionedDeserialize_decoded _ _ _ _ _ Hdec).
    destruct (_version c <? stored) eqn:E1; [apply Z.ltb_lt in E1; lia|].
    destruct (stored =? _version c) eqn:E2; [apply Z.eqb_eq in E2; lia|].
    by rewrite (Double_walk_stuck c stored migration).
Qed.

(** C3.  An envelope whose stored version is greater than the current
    version is refused with the future-version error, whatever the
    registry holds; no transform is called. *)
Theorem future_version_rejected c json stored data :
  decodes json stored data ->
  _version c < stored ->
  versionedDeserialize c json =
    ([], Throws (FutureVersion (JSNumber stored) (_version c))).
Proof.
  intros Hdec Hlt.
  rewrite (versionedDeserialize_decoded _ _ _ _ Hdec).
  destruct (_version c <? stored) eqn:E; [done|].
  apply Z.ltb_ge in E. lia.
Qed.

(** C5.  An envelope stored at the current version is answered with its
    [data] as it is, and no transform is called, whatever is registered. *)
Theorem fast_path c json data :
  decodes json (_version c) data ->
  versionedDeserialize c json = ([], Returns data).
Proof.
  intros Hdec.
  rewrite (versionedDeserialize_decoded _ _ _ _ Hdec).
  by rewrite Z.ltb_irrefl, Z.eqb_refl.
Qed.

(** C6.  Round trip: what [versionedSerialize] writes for a payload that
    the JSON codec carries across, [versionedDeserialize] of the same
    codec reads back as that payload, calling no transform. *)
Theorem round_trip c p :
  serializable (VersionedData (_version c) p) ->
  versionedDeserialize c (versionedSerialize c p) = ([], Returns p).
Proof.
  intros Hser. unfold versionedSerialize.
  rewrite (versionedDeserialize_decoded c _ (_version c) p).
  - by rewrite Z.ltb_irrefl, Z.eqb_refl.
  - by apply decodes_VersionedData.
Qed.

End Deserialize.

Lemma sample_decodes_v1 : @decodes sample_runtime text_v1 1 (JSNumber 7).
Proof. eexists. repeat split; vm_compute; reflexivity. Defined.

Lemma sample_decodes_v2 : @decodes sample_runtime text_v2 2 (JSNumber 7).
Proof. eexists. repeat split; vm_compute; reflexivity. Defined.

Lemma sample_decodes_v3 : @decodes sample_runtime text_v3 3 (JSNumber 7).
Proof. eexists. repeat split; vm_compute; reflexivity. Defined.

Lemma sample_decodes_v5 : @decodes sample_runtime text_v5 5 (JSNumber 7).
Proof. eexists. repeat split; vm_compute; reflexivity. Defined.

Lemma sequential_application_witness :
  @versionedDeserialize sample_runtime codec3_full text_v1 =
    ([1; 2], Returns (JSNumber 34)).
Proof.
  apply (@sequential_application sample_runtime codec3_full text_v1
           (JSNumber 7) add_ten times_two).
  - reflexivity.
  - vm_compute. reflexivity.
  - vm_compute. reflexivity.
  - exact sample_decodes_v1.
Defined.

Lemma missing_migration_witness :
  @Double.versionedDeserialize sample_runtime 0 codec3_gap text_v1 =
    ([], Throws (MissingMigration (JSNumber 1))).
Proof.
  destruct (@missing_migration sample_runtime codec3_gap text_v1 1 (JSNumber 7)
              sample_decodes_v1) as (_ & Hbelow & _).
  destruct (Hbelow 1 0%nat) as (v0 & Hv0 & _ & _ & Hrun & _).
  - unfold two53. lia.
  - unfold two53. simpl. lia.
  - simpl. lia.
  - vm_compute. reflexivity.
  - simpl. lia.
  - assert (v0 = 1) as -> by lia. exact Hrun.
Defined.

Lemma shape_decodes_v2p53 : @decodes shape_runtime text_v2p53 two53 (JSNumber 7).
Proof. eexists. repeat split; vm_compute; reflexivity. Defined.

(** C2 as stated fails on the codec of version 2^53 + 2 with one transform,
    under the key 2^53, and the envelope [{"version":9007199254740992,
    "data":7}]: the version 2^53 + 1 lies between the stored version and the
    current one and is not registered, yet no run throws the error for it or
    any other; [version++] leaves 2^53 as it is, and the transform of 2^53
    is called once per iteration. *)
Lemma walk_stuck_at_2p53 :
  two53 <= two53 + 1 < _version codec_above /\
  _migrations codec_above !! (two53 + 1) = None /\
  ~ (exists fuel calls v,
       @Double.versionedDeserialize shape_runtime fuel codec_above text_v2p53 =
         (calls, Throws (MissingMigration (JSNumber v)))) /\
  forall fuel,
    @Double.versionedDeserialize shape_runtime fuel codec_above text_v2p53 =
      (replicate fuel two53, OutOfFuel).
Proof.
  assert (forall fuel,
    @Double.versionedDeserialize shape_runtime fuel codec_above text_v2p53 =
      (replicate fuel two53, OutOfFuel)) as Hrun.
  { intros fuel.
    rewrite (@Double_versionedDeserialize_decoded shape_runtime fuel codec_above
               text_v2p53 two53 (JSNumber 7) shape_decodes_v2p53).
    change (_version codec_above <? two53) with false.
    change (two53 =? _version codec_above) with false. cbv iota.
    apply (Double_walk_stuck codec_above two53 add_ten fuel (JSNumber 7) []);
      vm_compute; reflexivity. }
  split; [change (_version codec_above) with (two53 + 2); lia|].
  split; [vm_compute; reflexivity|].
  split; [|exact Hrun].
  intros (fuel & calls & v & Hthrows). rewrite Hrun in Hthrows. discriminate.
Qed.

Lemma future_version_rejected_witness :
  @versionedDeserialize sample_runtime codec3_full text_v5 =
    ([], Throws (FutureVersion (JSNumber 5) 3)).
Proof.
  apply (@future_version_rejected sample_runtime codec3_full text_v5 5 (JSNumber 7)).
  - exact sample_decodes_v5.
  - simpl. lia.
Defined.

Lemma fast_path_witness :
  @versionedDeserialize sample_runtime codec3_full text_v3 =
    ([], Returns (JSNumber 7)).
Proof.
  apply (@fast_path sample_runtime codec3_full text_v3 (JSNumber 7)).
  exact sample_decodes_v3.
Defined.

Lemma round_trip_witness :
  @versionedDeserialize sample_runtime codec3
    (@versionedSerialize sample_runtime codec3 (JSNumber 7)) =
    ([], Returns (JSNumber 7)).
Proof.
  apply (@round_trip sample_runtime codec3 (JSNumber 7)).
  vm_compute. reflexivity.
Defined.

(** ** Decoding *)


Section Decoding.
Context `{!Runtime}.



End Decoding.



(** ** The registration claims *)

Lemma Map_set_lookup k fn c :
  _version (Map_set k fn c) = _version c /\
  _migrations (Map_set k fn c) !! k = Some fn /\
  (forall j, j <> k -> _migrations (Map_set k fn c) !! j = _migrations c !! j).
Proof.
  unfold Map_set. simpl. split; [done|]. split; [apply lookup_insert_eq|].
  intros j Hj. by apply lookup_insert_ne.
Qed.

(** C7, amended.  [migrations.toVersion(to).withTransform(fn)] throws the
    invalid-range error exactly when [from < 1], or [from >= V], or
    [to < 1], or [to > V], where [V] is the current version and [from] is
    [to - 1] as double arithmetic gives it; it succeeds otherwise and stores
    [fn] under [from], leaving the other keys and the version as they were.
    A registration that throws leaves the codec as it was.  For a source
    version [fromVersion] from -2^53 up to 2^53 - 1 and [to = fromVersion + 1]
    the subtraction is exact: the registration throws exactly when
    [fromVersion < 1], or [fromVersion >= V], or [fromVersion + 1 < 1], or
    [fromVersion + 1 > V], and otherwise stores [fn] under [fromVersion].
    Where [to - 1] rounds to [to] (as for [to = 2^54]) the registration for
    [to = V] is refused. *)
Theorem registration_bounds c to fn :
  let V := _version c in
  let from := minus_one to in
  let run := withTransform (Double.migrations.toVersion to) fn c in
  let invalid := from < 1 \/ from >= V \/ to < 1 \/ to > V in
  (run.1 = Throw (InvalidMigrationRange from to V) <-> invalid) /\
  (run.1 = Ok tt <-> ~ invalid) /\
  (invalid -> run.2 = c) /\
  (~ invalid ->
   _version run.2 = V /\
   _migrations run.2 !! from = Some fn /\
   forall k, k <> from -> _migrations run.2 !! k = _migrations c !! k) /\
  (forall fromVersion,
     to = fromVersion + 1 ->
     - two53 <= fromVersion < two53 ->
     from = fromVersion /\
     (invalid <->
      fromVersion < 1 \/ fromVersion >= V \/
      fromVersion + 1 < 1 \/ fromVersion + 1 > V)) /\
  (from = to -> to = V -> run = (Throw (InvalidMigrationRange to to V), c)).
Proof.
  intros V from run invalid. subst run.
  rewrite Double_withTransform_unfold. fold from V.
  pose proof (out_of_range_spec from to V) as Hspec.
  assert (out_of_range from to V = true <-> invalid) as Hinvalid
    by (rewrite Hspec; unfold invalid; lia).
  assert (forall fromVersion,
            to = fromVersion + 1 ->
            - two53 <= fromVersion < two53 ->
            from = fromVersion) as Hexact.
  { intros fromVersion -> Hsafe. unfold from.
    rewrite minus_one_exact by lia. lia. }
  destruct (out_of_range from to V) eqn:E; simpl.
  - assert invalid as Hbad by (by apply Hinvalid).
    split; [done|]. split; [split; [done|tauto]|]. split; [done|].
    split; [tauto|]. split.
    + intros fromVersion Hto Hsafe.
      pose proof (Hexact fromVersion Hto Hsafe) as Hfrom.
      split; [done|]. unfold invalid. clearbody from V. lia.
    + intros Hfrom Hto. by rewrite Hfrom.
  - assert (~ invalid) as Hgood by (intros Hbad; apply Hinvalid in Hbad; done).
    split; [split; [done|tauto]|]. split; [done|]. split; [tauto|].
    split; [intros _; apply Map_set_lookup|]. split.
    + intros fromVersion Hto Hsafe.
      pose proof (Hexact fromVersion Hto Hsafe) as Hfrom.
      split; [done|]. unfold invalid. clearbody from V. lia.
    + intros Hfrom Hto. exfalso. apply Hgood. unfold invalid. lia.
Qed.

(** With current version 3: source versions 3 and 0 are refused and leave
    the codec as it was, source version 2 is accepted. *)
Lemma registration_bounds_witness :
  withTransform (Double.migrations.toVersion (3 + 1)) add_ten codec3 =
    (Throw (InvalidMigrationRange 3 4 3), codec3) /\
  withTransform (Double.migrations.toVersion (0 + 1)) add_ten codec3 =
    (Throw (InvalidMigrationRange 0 1 3), codec3) /\
  (withTransform (Double.migrations.toVersion (2 + 1)) add_ten codec3).1 = Ok tt /\
  _migrations (withTransform (Double.migrations.toVersion (2 + 1)) add_ten codec3).2
    !! 2 = Some add_ten.
Proof.
  destruct (registration_bounds codec3 (3 + 1) add_ten)
    as (Hthrow3 & _ & Hsame3 & _ & Hexact3 & _).
  destruct (registration_bounds codec3 (0 + 1) add_ten)
    as (Hthrow0 & _ & Hsame0 & _ & Hexact0 & _).
  destruct (registration_bounds codec3 (2 + 1) add_ten)
    as (_ & Hok2 & _ & Hset2 & Hexact2 & _).
  destruct (Hexact3 3) as [Hfrom3 Hclaim3]; [done|unfold two53; lia|].
  destruct (Hexact0 0) as [Hfrom0 Hclaim0]; [done|unfold two53; lia|].
  destruct (Hexact2 2) as [Hfrom2 Hclaim2]; [done|unfold two53; lia|].
  cbv zeta in *. rewrite Hfrom3 in Hthrow3. rewrite Hfrom0 in Hthrow0.
  rewrite Hfrom2 in Hset2.
  assert (~ (2 < 1 \/ 2 >= _version codec3 \/ 2 + 1 < 1 \/ 2 + 1 > _version codec3))
    as Hgood by (simpl; lia).
  split; [|split; [|split]].
  - apply injective_projections; simpl.
    + apply Hthrow3, Hclaim3. simpl. lia.
    + apply Hsame3, Hclaim3. simpl. lia.
  - apply injective_projections; simpl.
    + apply Hthrow0, Hclaim0. simpl. lia.
    + apply Hsame0, Hclaim0. simpl. lia.
  - apply Hok2. intros Hbad. apply Hgood. by apply Hclaim2.
  - apply Hset2. intros Hbad. apply Hgood. by apply Hclaim2.
Defined.

(** C7 as stated fails for the target version 2^54 on a codec of version
    2^54: with [fromVersion = 2^54 - 1] none of the four conditions holds,
    and the registration throws; [2^54 - 1] is no double, [to - 1] gives
    2^54, which is not below the current version. *)
Lemma registration_refused_at_2p54 :
  ~ (2 * two53 - 1 < 1 \/ 2 * two53 - 1 >= _version codec_2p54 \/
     2 * two53 - 1 + 1 < 1 \/ 2 * two53 - 1 + 1 > _version codec_2p54) /\
  withTransform (Double.migrations.toVersion (2 * two53 - 1 + 1)) add_ten
                codec_2p54 =
    (Throw (InvalidMigrationRange (2 * two53) (2 * two53) (2 * two53)), codec_2p54).
Proof.
  split; [|vm_compute; reflexivity].
  change (_version codec_2p54) with (2 * two53). unfold two53. lia.
Qed.

Section LastWriteWins.
Context `{!Runtime}.

(** C8.  Two registrations for one target version, [f] and then [g], the
    first of them accepted: the second is accepted too, and the codec is
    then the one that the registration of [g] alone leaves.  Its registry
    holds [g] under the source version [from] (which is [to - 1] as the code
    computes it: [to - 1] itself up to 2^53), and every other key and the
    version are as before.  An
    envelope stored at [from], with the current version reached by one
    [version++], is answered with [g] of its data after the one call at
    [from]; and a deserialization that walks through [from] and finds every
    version on its way registered returns the payload taken through the
    transforms of the old registry with [g] at [from]: [f] takes no part. *)
Theorem last_write_wins c to f g :
  let from := minus_one to in
  let register fn := withTransform (Double.migrations.toVersion to) fn in
  (register f c).1 = Ok tt ->
  exists c2,
    bind (register f) (fun _ => register g) c = (Ok tt, c2) /\
    register g c = (Ok tt, c2) /\
    _version c2 = _version c /\
    _migrations c2 !! from = Some g /\
    (forall k, k <> from -> _migrations c2 !! k = _migrations c !! k) /\
    (- two53 < to <= two53 -> from = to - 1) /\
    (forall json data fuel,
       decodes json from data ->
       _version c <= plus_one from ->
       (1 <= fuel)%nat ->
       Double.versionedDeserialize fuel c2 json = ([from], Returns (g data))) /\
    (forall json stored data n fuel,
       decodes json stored data ->
       stored <= _version c ->
       (n <= fuel)%nat ->
       from ∈ Double.visits stored n ->
       Forall (fun k => k < _version c /\ is_Some (_migrations c2 !! k))
              (Double.visits stored n) ->
       _version c <= Double.reach stored n ->
       Double.versionedDeserialize fuel c2 json =
         (Double.visits stored n,
          Returns (apply_registered (<[from := g]> (_migrations c))
                     (Double.visits stored n) data))).
Proof.
  intros from register Hvalid. subst register. cbv beta in *.
  rewrite Double_withTransform_unfold in Hvalid. fold from in Hvalid.
  destruct (out_of_range from to (_version c)) eqn:E; [done|]. clear Hvalid.
  assert (1 <= from < _version c) as Hfrom.
  { destruct (decide (1 <= from < _version c)) as [|Hout]; [done|].
    assert (out_of_range from to (_version c) = true)
      by (apply out_of_range_spec; lia).
    congruence. }
  exists (Map_set from g c).
  unfold bind. rewrite !Double_withTransform_unfold. fold from.
  rewrite E. cbv beta iota. rewrite Double_withTransform_unfold. fold from.
  cbn [_version Map_set]. rewrite E. fold (Map_set from f c).
  fold (Map_set from g (Map_set from f c)). rewrite Map_set_twice.
  destruct (Map_set_lookup from g c) as (HV & Hg & Hother).
  split; [done|]. split; [done|]. split; [done|]. split; [done|].
  split; [done|]. split; [intros Hto; unfold from; rewrite minus_one_exact; lia|].
  split.
  - intros json data fuel Hdec Hnext Hfuel.
    rewrite (Double_versionedDeserialize_decoded _ _ _ _ _ Hdec), HV.
    destruct (_version c <? from) eqn:E1; [apply Z.ltb_lt in E1; lia|].
    destruct (from =? _version c) eqn:E2; [apply Z.eqb_eq in E2; lia|].
    rewrite (Double_walk_chain (Map_set from g c) 1).
    + cbn [Double.visits app]. by rewrite (apply_registered_cons _ _ _ _ _ Hg).
    + done.
    + cbn [Double.visits]. repeat constructor; [by rewrite HV; lia|by eexists].
    + cbn [Double.reach]. by rewrite HV.
  - intros json stored data n fuel Hdec Hstored Hfuel _ Hall Hend.
    rewrite (Double_versionedDeserialize_decoded _ _ _ _ _ Hdec), HV.
    destruct (_version c <? stored) eqn:E1; [apply Z.ltb_lt in E1; lia|].
    destruct (stored =? _version c) eqn:E2.
    + apply Z.eqb_eq in E2.
      destruct n as [|n]; [done|].
      cbn [Double.visits] in Hall. apply Forall_cons in Hall as [[? _] _]. lia.
    + rewrite (Double_walk_chain (Map_set from g c) n); [done|done| |by rewrite HV].
      by rewrite HV.
Qed.

End LastWriteWins.

Lemma last_write_wins_witness :
  bind (withTransform (Double.migrations.toVersion 3) times_two)
       (fun _ => withTransform (Double.migrations.toVersion 3) add_ten)
       codec3_low =
    (Ok tt, codec3_rewritten) /\
  @Double.versionedDeserialize sample_runtime 1 codec3_rewritten text_v2 =
    ([2], Returns (JSNumber 17)) /\
  @Double.versionedDeserialize sample_runtime 2 codec3_rewritten text_v1 =
    ([1; 2], Returns (JSNumber 27)).
Proof.
  destruct (@last_write_wins sample_runtime codec3_low 3 times_two add_ten)
    as (c2 & Hboth & Hlast & _ & _ & _ & _ & Hone & Hread);
    [vm_compute; reflexivity|].
  assert (c2 = codec3_rewritten) as ->.
  { vm_compute in Hlast. by injection Hlast as <-. }
  split; [exact Hboth|]. split.
  - apply (Hone text_v2 (JSNumber 7) 1%nat sample_decodes_v2); [|done].
    vm_compute. discriminate.
  - rewrite (Hread text_v1 1 (JSNumber 7) 2%nat 2%nat sample_decodes_v1).
    + vm_compute. reflexivity.
    + simpl. lia.
    + done.
    + vm_compute. apply list_elem_of_In. simpl. tauto.
    + vm_compute. repeat constructor; by eexists.
    + vm_compute. discriminate.
Defined.

(** C9, amended.  [addMigration(n, f)] is
    [migrations.toVersion(n).withTransform(f)]: its first argument is the
    target version.  Where it succeeds [f] is stored under [n - 1] as double
    arithmetic gives it, the other keys and the version staying as they
    were; for [n] from -2^53 + 1 up to 2^53 that key is [n - 1].
    [addMigration(1, f)] always throws the invalid-range error.  With a
    current version [V] from 2 up to 2^53, [addMigration(V, f)] succeeds
    and registers [f] at source version [V - 1].  Above 2^53, [V - 1] is no
    double: where it rounds to [V] (as for [V = 2^54]), [addMigration(V, f)]
    throws the invalid-range error. *)
Theorem addMigration_takes_target c n f :
  let from := minus_one n in
  Double.addMigration n f c =
    withTransform (Double.migrations.toVersion n) f c /\
  (forall c',
     Double.addMigration n f c = (Ok tt, c') ->
     _version c' = _version c /\
     _migrations c' !! from = Some f /\
     forall k, k <> from -> _migrations c' !! k = _migrations c !! k) /\
  (- two53 < n <= two53 -> from = n - 1) /\
  Double.addMigration 1 f c =
    (Throw (InvalidMigrationRange 0 1 (_version c)), c) /\
  (2 <= _version c <= two53 ->
   exists c',
     Double.addMigration (_version c) f c = (Ok tt, c') /\
     _version c' = _version c /\
     _migrations c' !! (_version c - 1) = Some f /\
     forall k, k <> _version c - 1 -> _migrations c' !! k = _migrations c !! k) /\
  (minus_one (_version c) = _version c ->
   Double.addMigration (_version c) f c =
     (Throw (InvalidMigrationRange (_version c) (_version c) (_version c)), c)).
Proof.
  intros from. unfold Double.addMigration.
  split; [done|]. split; [|split; [|split; [|split]]].
  - rewrite Double_withTransform_unfold. fold from.
    destruct (out_of_range _ _ _); [done|].
    intros c' [= <-]. apply Map_set_lookup.
  - intros Hn. unfold from. rewrite minus_one_exact; lia.
  - rewrite Double_withTransform_unfold.
    change (minus_one 1) with 0.
    destruct (out_of_range 0 1 (_version c)) eqn:E; [done|].
    assert (out_of_range 0 1 (_version c) = true) as E'
      by (apply out_of_range_spec; lia).
    congruence.
  - intros HV. exists (Map_set (_version c - 1) f c).
    rewrite Double_withTransform_exact, withTransform_in_range by lia.
    split; [done|]. apply Map_set_lookup.
  - intros Hround. rewrite Double_withTransform_unfold, Hround.
    destruct (out_of_range _ _ _) eqn:E; [done|].
    assert (out_of_range (_version c) (_version c) (_version c) = true) as E'
      by (apply out_of_range_spec; lia).
    congruence.
Qed.

Lemma addMigration_takes_target_witness :
  Double.addMigration 1 add_ten codec3 =
    (Throw (InvalidMigrationRange 0 1 3), codec3) /\
  exists c',
    Double.addMigration 3 add_ten codec3 = (Ok tt, c') /\
    _version c' = 3 /\
    _migrations c' !! 2 = Some add_ten /\
    forall k, k <> 2 -> _migrations c' !! k = _migrations codec3 !! k.
Proof.
  destruct (addMigration_takes_target codec3 1 add_ten)
    as (_ & _ & _ & Hone & Hcurrent & _).
  split; [exact Hone|].
  apply Hcurrent. unfold two53. simpl. lia.
Defined.

(** C9 as stated fails for the current version 2^54: it is at least 2, and
    [addMigration(2^54, f)] throws, [2^54 - 1] giving 2^54. *)
Lemma addMigration_refused_at_2p54 :
  2 <= _version codec_2p54 /\
  Double.addMigration (_version codec_2p54) add_ten codec_2p54 =
    (Throw (InvalidMigrationRange (2 * two53) (2 * two53) (2 * two53)), codec_2p54).
Proof. split; [vm_compute; discriminate|vm_compute; reflexivity]. Qed.

(** ** Construction *)

Lemma seed_snoc mds md registry :
  seed (mds ++ [md]) registry =
  <[MigrationMetadata.toVersion md - 1 := MigrationMetadata.transform md]>
    (seed mds registry).
Proof. unfold seed. by rewrite foldl_snoc. Qed.

(** After seeding, a key holds the transform of the last entry declared for
    it, and nothing where no entry was. *)
Lemma seed_lookup mds k :
  seed mds ∅ !! k =
  MigrationMetadata.transform <$>
    last (filter (fun md => MigrationMetadata.toVersion md - 1 = k) mds).
Proof.
  induction mds as [|md mds IH] using rev_ind; [done|].
  rewrite seed_snoc, filter_app, filter_cons, filter_nil.
  destruct (decide (MigrationMetadata.toVersion md - 1 = k)) as [->|Hne].
  - by rewrite lookup_insert_eq, last_snoc.
  - by rewrite lookup_insert_ne, app_nil_r.
Qed.

Lemma Double_seed_snoc mds md registry :
  Double.seed (mds ++ [md]) registry =
  <[minus_one (MigrationMetadata.toVersion md) := MigrationMetadata.transform md]>
    (Double.seed mds registry).
Proof. unfold Double.seed. by rewrite foldl_snoc. Qed.





(** * Further properties *)

(** ** The whole walk *)

Lemma walk_complete c fuel version data calls :
  version <= _version c ->
  (forall u, version <= u < _version c -> is_Some (_migrations c !! u)) ->
  (Z.to_nat (_version c - version) <= fuel)%nat ->
  walk c fuel version data calls =
    (calls ++ seqZ version (_version c - version),
     Returns (apply_registered (_migrations c)
                (seqZ version (_version c - version)) data)).
Proof.
  revert version data calls.
  induction fuel as [|fuel IH]; intros version data calls Hle Hreg Hfuel;
    rewrite walk_unfold.
  - assert (version = _version c) as -> by lia.
    by rewrite Z.ltb_irrefl, Z.sub_diag, app_nil_r.
  - destruct (version <? _version c) eqn:E.
    + apply Z.ltb_lt in E.
      destruct (Hreg version) as [migration Hm]; [lia|]. rewrite Hm.
      rewrite IH by (try lia; intros; apply Hreg; lia).
      rewrite (seqZ_cons version (_version c - version)) by lia.
      rewrite (apply_registered_cons _ _ _ _ _ Hm), <- app_assoc. simpl.
      repeat f_equal; lia.
    + apply Z.ltb_ge in E. assert (version = _version c) as -> by lia.
      by rewrite Z.sub_diag, app_nil_r.
Qed.

(** The calls of a walk are consecutive keys from its first version, and
    stay below the current version. *)
Lemma walk_calls c fuel version data calls :
  exists n,
    0 <= n <= Z.max 0 (_version c - version) /\
    (walk c fuel version data calls).1 = calls ++ seqZ version n.
Proof.
  revert version data calls.
  induction fuel as [|fuel IH]; intros version data calls; rewrite walk_unfold.
  - exists 0. split; [lia|].
    destruct (version <? _version c); [destruct (_migrations c !! version)|];
      by rewrite app_nil_r.
  - destruct (version <? _version c) eqn:E.
    + apply Z.ltb_lt in E.
      destruct (_migrations c !! version) as [migration|].
      * destruct (IH (version + 1) (migration data) (calls ++ [version]))
          as (n & Hn & Hcalls).
        exists (n + 1). split; [lia|].
        rewrite Hcalls, <- app_assoc. simpl.
        rewrite (seqZ_cons version (n + 1)) by lia.
        repeat f_equal; lia.
      * exists 0. split; [lia|]. by rewrite app_nil_r.
    + exists 0. split; [lia|]. by rewrite app_nil_r.
Qed.

(** A walk reads the registry at the keys from its first version up to the
    current one only. *)
Lemma walk_ext c1 c2 fuel version data calls :
  _version c1 = _version c2 ->
  (forall u, version <= u < _version c1 ->
             _migrations c1 !! u = _migrations c2 !! u) ->
  walk c1 fuel version data calls = walk c2 fuel version data calls.
Proof.
  intros HV. revert version data calls.
  induction fuel as [|fuel IH]; intros version data calls Hsame;
    rewrite !walk_unfold, <- HV;
    (destruct (version <? _version c1) eqn:E; [apply Z.ltb_lt in E|done]);
    rewrite <- (Hsame version) by lia;
    (destruct (_migrations c1 !! version); [|done]); [done|].
  apply IH. intros u Hu. apply Hsame. lia.
Qed.

Section Chain.
Context `{!Runtime}.

(** X1.  Where the stored version is at most the current one and every key
    from the stored version up to the current one is registered,
    deserialization returns the payload taken through the transforms of
    these keys in increasing order, and those are the calls it makes, each
    once. *)
Theorem migration_chain c json stored data :
  decodes json stored data ->
  stored <= _version c ->
  (forall u, stored <= u < _version c -> is_Some (_migrations c !! u)) ->
  versionedDeserialize c json =
    (seqZ stored (_version c - stored),
     Returns (apply_registered (_migrations c)
                (seqZ stored (_version c - stored)) data)).
Proof.
  intros Hdec Hle Hreg.
  rewrite (versionedDeserialize_decoded _ _ _ _ Hdec).
  destruct (_version c <? stored) eqn:E1; [apply Z.ltb_lt in E1; lia|].
  destruct (stored =? _version c) eqn:E2.
  - apply Z.eqb_eq in E2 as ->. by rewrite Z.sub_diag.
  - by rewrite walk_complete.
Qed.

(** X2.  Deserialization of an envelope returns a value exactly when its
    stored version is at most the current one and every key from the stored
    version up to the current one is registered. *)
Theorem returns_iff_chain_complete c json stored data :
  decodes json stored data ->
  (exists value, (versionedDeserialize c json).2 = Returns value) <->
  stored <= _version c /\
  (forall u, stored <= u < _version c -> is_Some (_migrations c !! u)).
Proof.
  intros Hdec. split.
  - intros [value Hvalue].
    rewrite (versionedDeserialize_decoded _ _ _ _ Hdec) in Hvalue.
    destruct (_version c <? stored) eqn:E1; [done|].
    apply Z.ltb_ge in E1. split; [done|].
    intros u Hu.
    destruct (stored =? _version c) eqn:E2; [apply Z.eqb_eq in E2; lia|].
    destruct (_migrations c !! u) as [f|] eqn:Hlookup; [by eexists|].
    destruct (walk_first_gap c (Z.to_nat (_version c - stored)) stored u data [])
      as (v0 & _ & _ & _ & Hwalk); [lia|done|lia|].
    by rewrite Hwalk in Hvalue.
  - intros [Hle Hreg].
    rewrite (versionedDeserialize_decoded _ _ _ _ Hdec).
    destruct (_version c <? stored) eqn:E1; [apply Z.ltb_lt in E1; lia|].
    destruct (stored =? _version c); [by exists data|].
    rewrite walk_complete by (done || lia). by eexists.
Qed.

(** X3.  Deserialization of an envelope reads the registry at the keys from
    the stored version up to the current one and nowhere else: two codecs of
    one version whose registries agree on these keys answer alike. *)
Theorem deserialize_reads_range_only c1 c2 json stored data :
  decodes json stored data ->
  _version c1 = _version c2 ->
  (forall u, stored <= u < _version c1 ->
             _migrations c1 !! u = _migrations c2 !! u) ->
  versionedDeserialize c1 json = versionedDeserialize c2 json.
Proof.
  intros Hdec HV Hsame.
  rewrite !(versionedDeserialize_decoded _ _ _ _ Hdec), <- HV.
  destruct (_version c1 <? stored); [done|].
  destruct (stored =? _version c1); [done|].
  by apply walk_ext.
Qed.

(** X4.  With the stored version at least -2^53 and the current version at
    most 2^53, where [version++] is exact, the transforms a deserialization
    calls are those of consecutive keys starting at the stored version, each
    once, and there are at most as many as versions between the stored one
    and the current one: none when the stored version is the current one or
    above. *)
Theorem calls_are_consecutive c json stored data :
  decodes json stored data ->
  - two53 <= stored ->
  _version c <= two53 ->
  exists n,
    0 <= n <= Z.max 0 (_version c - stored) /\
    (versionedDeserialize c json).1 = seqZ stored n.
Proof.
  intros Hdec _ _.
  rewrite (versionedDeserialize_decoded _ _ _ _ Hdec).
  destruct (_version c <? stored); [exists 0; split; [lia|done]|].
  destruct (stored =? _version c); [exists 0; split; [lia|done]|].
  destruct (walk_calls c (Z.to_nat (_version c - stored)) stored data [])
    as (n & Hn & Hcalls).
  by exists n.
Qed.

(** X5.  A parsed value that is not [null] and has no [version] property (an
    object without that key, an array, a number, a string, a boolean) is not
    refused: whatever the current version and the registry, deserialization
    returns its [data] property, [undefined] where there is none, and calls
    no transform. *)
Theorem missing_version_returns_data c json parsed data :
  JSON_parse json = Some parsed ->
  Get parsed "version" = Ok JSUndefined ->
  Get parsed "data" = Ok data ->
  versionedDeserialize c json = ([], Returns data).
Proof.
  intros Hparse Hversion Hdata.
  unfold versionedDeserialize. by rewrite Hparse, Hversion, Hdata.
Qed.

(** X6.  A [version] property that is not a number never leads to a call of
    a transform, and the registry plays no part in the answer. *)
Theorem non_number_version_skips_registry c c' json parsed x :
  JSON_parse json = Some parsed ->
  Get parsed "version" = Ok x ->
  (forall n, x <> JSNumber n) ->
  _version c' = _version c ->
  (versionedDeserialize c json).1 = [] /\
  versionedDeserialize c' json = versionedDeserialize c json.
Proof.
  intros Hparse Hversion Hx HV.
  unfold versionedDeserialize. rewrite Hparse, Hversion, HV.
  destruct (greater_than x (_version c)) as [[]|]; [done| |done].
  destruct (Get parsed "data") as [data|]; [|done].
  assert (strict_equal x (_version c) = false) as ->
    by (destruct x; try done; by destruct (Hx n)).
  unfold _applyMigrations. rewrite HV.
  destruct x; try (by destruct (Hx n));
    by destruct (less_than _ (_version c)) as [[]|].
Qed.

(** X7.  A [version] property that is [null] counts as 0 in the two
    comparisons but is no key of the registry: under a current version
    above 0 the envelope is refused with the missing-migration error for
    [null], even with a transform registered at 0; under a current version
    below 0 it is refused as a future version; under the current version 0
    its data is returned. *)
Theorem null_version c json parsed data :
  JSON_parse json = Some parsed ->
  Get parsed "version" = Ok JSNull ->
  Get parsed "data" = Ok data ->
  versionedDeserialize c json =
    if 0 <? _version c then ([], Throws (MissingMigration JSNull))
    else if _version c <? 0 then ([], Throws (FutureVersion JSNull (_version c)))
    else ([], Returns data).
Proof.
  intros Hparse Hversion Hdata.
  unfold versionedDeserialize, greater_than, _applyMigrations, less_than.
  rewrite Hparse, Hversion, Hdata. simpl.
  destruct (0 <? _version c) eqn:E1, (_version c <? 0) eqn:E2; try done.
  apply Z.ltb_lt in E1, E2. lia.
Qed.

End Chain.

Lemma codec3_full_registered u :
  1 <= u < _version codec3_full -> is_Some (_migrations codec3_full !! u).
Proof.
  simpl. intros Hu.
  assert (u = 1 \/ u = 2) as [-> | ->] by lia; vm_compute; by eexists.
Defined.

Lemma migration_chain_witness :
  @versionedDeserialize sample_runtime codec3_full text_v1 =
    ([1; 2], Returns (JSNumber 34)).
Proof.
  rewrite (@migration_chain sample_runtime codec3_full text_v1 1 (JSNumber 7)).
  - vm_compute. reflexivity.
  - exact sample_decodes_v1.
  - simpl. lia.
  - exact codec3_full_registered.
Defined.

Lemma returns_iff_chain_complete_witness :
  exists value,
    (@versionedDeserialize sample_runtime codec3_full text_v1).2 = Returns value.
Proof.
  apply (@returns_iff_chain_complete sample_runtime codec3_full text_v1 1
           (JSNumber 7) sample_decodes_v1).
  split; [simpl; lia|exact codec3_full_registered].
Defined.

Lemma deserialize_reads_range_only_witness :
  @versionedDeserialize sample_runtime codec3_gap text_v2 =
  @versionedDeserialize sample_runtime codec3_full text_v2.
Proof.
  apply (@deserialize_reads_range_only sample_runtime codec3_gap codec3_full
           text_v2 2 (JSNumber 7) sample_decodes_v2).
  - reflexivity.
  - simpl. intros u Hu. assert (u = 2) as -> by lia. vm_compute. reflexivity.
Defined.

Lemma calls_are_consecutive_witness :
  exists n,
    0 <= n <= Z.max 0 (_version codec3_full - 1) /\
    (@versionedDeserialize sample_runtime codec3_full text_v1).1 = seqZ 1 n.
Proof.
  apply (@calls_are_consecutive sample_runtime codec3_full text_v1 1 (JSNumber 7)
           sample_decodes_v1).
  - unfold two53. lia.
  - unfold two53. simpl. lia.
Defined.

Lemma missing_version_returns_data_witness :
  @versionedDeserialize edge_runtime codec3_full text_empty = ([], Returns JSUndefined) /\
  @versionedDeserialize edge_runtime codec3_full text_array = ([], Returns JSUndefined).
Proof.
  split.
  - apply (@missing_version_returns_data edge_runtime codec3_full text_empty
             (JSObject [])); vm_compute; reflexivity.
  - apply (@missing_version_returns_data edge_runtime codec3_full text_array
             (JSArray [JSNumber 7])); vm_compute; reflexivity.
Defined.

Lemma non_number_version_skips_registry_witness :
  (@versionedDeserialize edge_runtime codec3 text_vnull).1 = [] /\
  @versionedDeserialize edge_runtime codec3_full text_vnull =
  @versionedDeserialize edge_runtime codec3 text_vnull.
Proof.
  apply (@non_number_version_skips_registry edge_runtime codec3 codec3_full
           text_vnull
           (JSObject [("version"%string, JSNull); ("data"%string, JSNumber 7)])
           JSNull).
  - vm_compute. reflexivity.
  - vm_compute. reflexivity.
  - intros n. discriminate.
  - reflexivity.
Defined.

Lemma null_version_witness :
  @versionedDeserialize edge_runtime codec3_full text_vnull =
    ([], Throws (MissingMigration JSNull)).
Proof.
  rewrite (@null_version edge_runtime codec3_full text_vnull
             (JSObject [("version"%string, JSNull); ("data"%string, JSNumber 7)])
             (JSNumber 7)); vm_compute; reflexivity.
Defined.

(** ** The registry and the current version *)

Lemma registry_in_range_Map_set k f c :
  registry_in_range c -> 1 <= k < _version c -> registry_in_range (Map_set k f c).
Proof.
  intros Hc Hk j. unfold Map_set. simpl.
  destruct (decide (k = j)) as [<-|Hne]; [done|].
  rewrite lookup_insert_ne by done. apply Hc.
Qed.

Lemma registry_in_range_fresh version store :
  registry_in_range (createVersioned version None store).
Proof. intros k. simpl. rewrite lookup_empty. by intros [? ?]. Qed.

(** X8.  The builder keeps the registry within the range it checks: where
    every key of the registry is at least 1 and below the current version
    before a call of [withTransform], accepted or refused, it is so after
    it. *)
Theorem builder_keeps_range c to fn :
  registry_in_range c ->
  registry_in_range (withTransform (migrations.toVersion to) fn c).2.
Proof.
  intros Hc. rewrite withTransform_unfold.
  destruct (out_of_range (to - 1) to (_version c)) eqn:E; [done|].
  apply registry_in_range_Map_set; [done|].
  destruct (decide (1 <= to - 1 < _version c)) as [|Hout]; [done|].
  assert (out_of_range (to - 1) to (_version c) = true)
    by (apply out_of_range_spec; lia).
  congruence.
Qed.

(** X9.  [setCurrentVersion] checks nothing and leaves the registry as it
    is: starting from a registry within range, the registry is within range
    of the new version exactly when every registered key is below it, so
    raising the version keeps the range and lowering it to a registered key
    or below breaks it. *)
Theorem setCurrentVersion_range c version :
  registry_in_range c ->
  _migrations (setCurrentVersion version c).2 = _migrations c /\
  (registry_in_range (setCurrentVersion version c).2 <->
   forall k, is_Some (_migrations c !! k) -> k < version).
Proof.
  intros Hc. split; [done|]. split.
  - intros Hnew k Hk. by apply Hnew.
  - intros Hbelow k Hk. simpl in *. split; [by apply Hc|by apply Hbelow].
Qed.

(** X10.  Whether a registration is accepted depends on the current version
    at the time of the call: a target version from 2 up to 2^53 that is
    above the current version is refused, and the same call made after
    [setCurrentVersion] to that target version is accepted. *)
Theorem registration_depends_on_order c to fn :
  2 <= to <= two53 ->
  _version c < to ->
  withTransform (migrations.toVersion to) fn c =
    (Throw (InvalidMigrationRange (to - 1) to (_version c)), c) /\
  bind (setCurrentVersion to)
       (fun _ => withTransform (migrations.toVersion to) fn) c =
    (Ok tt, {| _version := to; _migrations := <[to - 1 := fn]> (_migrations c) |}).
Proof.
  intros Hto Hlt. split.
  - rewrite withTransform_unfold.
    destruct (out_of_range (to - 1) to (_version c)) eqn:E; [done|].
    assert (out_of_range (to - 1) to (_version c) = true)
      by (apply out_of_range_spec; lia).
    congruence.
  - unfold bind, setCurrentVersion, modify.
    by rewrite withTransform_in_range by (simpl; lia).
Qed.


Section Bump.
Context `{!Runtime}.

(** X12.  With a registry within range, an envelope stored at a version
    below 1 that is also below the current version is refused with the
    missing-migration error for its own version, and no transform is
    called. *)
Theorem version_below_one_is_missing c json stored data :
  registry_in_range c ->
  decodes json stored data ->
  stored < 1 ->
  stored < _version c ->
  versionedDeserialize c json = ([], Throws (MissingMigration (JSNumber stored))).
Proof.
  intros Hc Hdec Hlow Hlt.
  rewrite (versionedDeserialize_decoded _ _ _ _ Hdec).
  destruct (_version c <? stored) eqn:E1; [apply Z.ltb_lt in E1; lia|].
  destruct (stored =? _version c) eqn:E2; [apply Z.eqb_eq in E2; lia|].
  rewrite walk_unfold.
  destruct (stored <? _version c) eqn:E3; [|apply Z.ltb_ge in E3; lia].
  destruct (_migrations c !! stored) as [f|] eqn:Hlookup; [|done].
  assert (1 <= stored < _version c) by (apply Hc; by eexists). lia.
Qed.

(** X13.  With a registry within range, raising the current version by one
    makes the codec refuse what it has itself written before: the envelope
    carries the old version, and no transform is registered there. *)
Theorem bump_needs_migration c p :
  registry_in_range c ->
  serializable (VersionedData (_version c) p) ->
  versionedDeserialize (setCurrentVersion (_version c + 1) c).2
                       (versionedSerialize c p) =
    ([], Throws (MissingMigration (JSNumber (_version c)))).
Proof.
  intros Hc Hser. unfold versionedSerialize.
  rewrite (versionedDeserialize_decoded _ _ (_version c) p)
    by (by apply decodes_VersionedData).
  simpl.
  destruct (_version c + 1 <? _version c) eqn:E1; [apply Z.ltb_lt in E1; lia|].
  destruct (_version c =? _version c + 1) eqn:E2; [apply Z.eqb_eq in E2; lia|].
  rewrite walk_unfold. simpl.
  destruct (_version c <? _version c + 1) eqn:E3; [|apply Z.ltb_ge in E3; lia].
  destruct (_migrations c !! _version c) as [f|] eqn:Hlookup; [|done].
  assert (1 <= _version c < _version c) by (apply Hc; by eexists). lia.
Qed.

(** X14.  Moving a codec of version [V >= 1] on by one version:
    after [setCurrentVersion(V + 1)] and the registration of [f] for the
    target [V + 1], what the codec had written before reads back as [f] of
    the payload, with the one call of the transform at [V]. *)
Theorem upgrade_by_one c f p :
  1 <= _version c ->
  serializable (VersionedData (_version c) p) ->
  let upgraded :=
    (bind (setCurrentVersion (_version c + 1))
          (fun _ => withTransform (migrations.toVersion (_version c + 1)) f) c).2 in
  versionedDeserialize upgraded (versionedSerialize c p) =
    ([_version c], Returns (f p)).
Proof.
  intros HV Hser upgraded. subst upgraded.
  unfold bind, setCurrentVersion, modify, versionedSerialize.
  rewrite withTransform_in_range by (simpl; lia).
  rewrite (versionedDeserialize_decoded _ _ (_version c) p)
    by (by apply decodes_VersionedData).
  replace (_version c + 1 - 1) with (_version c) by lia. simpl.
  destruct (_version c + 1 <? _version c) eqn:E1; [apply Z.ltb_lt in E1; lia|].
  destruct (_version c =? _version c + 1) eqn:E2; [apply Z.eqb_eq in E2; lia|].
  replace (Z.to_nat (_version c + 1 - _version c)) with 1%nat by lia.
  rewrite walk_unfold. simpl.
  destruct (_version c <? _version c + 1) eqn:E3; [|apply Z.ltb_ge in E3; lia].
  by rewrite lookup_insert_eq, Z.ltb_irrefl.
Qed.

End Bump.

Lemma codec3_in_range : registry_in_range codec3.
Proof. apply registry_in_range_fresh. Defined.

Lemma codec3_full_in_range : registry_in_range codec3_full.
Proof.
  unfold codec3_full.
  apply registry_in_range_Map_set; [|simpl; lia].
  apply registry_in_range_Map_set; [|simpl; lia].
  exact codec3_in_range.
Defined.

Lemma builder_keeps_range_witness :
  registry_in_range (withTransform (migrations.toVersion 2) add_ten codec3).2.
Proof. exact (builder_keeps_range codec3 2 add_ten codec3_in_range). Defined.

Lemma setCurrentVersion_range_witness :
  _migrations (setCurrentVersion 2 codec3_full).2 = _migrations codec3_full /\
  (registry_in_range (setCurrentVersion 2 codec3_full).2 <->
   forall k, is_Some (_migrations codec3_full !! k) -> k < 2).
Proof. exact (setCurrentVersion_range codec3_full 2 codec3_full_in_range). Defined.

Lemma registration_depends_on_order_witness :
  withTransform (migrations.toVersion 4) add_ten codec3 =
    (Throw (InvalidMigrationRange 3 4 3), codec3) /\
  bind (setCurrentVersion 4)
       (fun _ => withTransform (migrations.toVersion 4) add_ten) codec3 =
    (Ok tt, {| _version := 4; _migrations := <[3 := add_ten]> (_migrations codec3) |}).
Proof.
  apply (registration_depends_on_order codec3 4 add_ten);
    unfold two53; simpl; lia.
Defined.


Lemma edge_decodes_v0 : @decodes edge_runtime text_v0 0 (JSNumber 7).
Proof. eexists. repeat split; vm_compute; reflexivity. Defined.

Lemma version_below_one_is_missing_witness :
  @versionedDeserialize edge_runtime codec3_full text_v0 =
    ([], Throws (MissingMigration (JSNumber 0))).
Proof.
  apply (@version_below_one_is_missing edge_runtime codec3_full text_v0 0
           (JSNumber 7) codec3_full_in_range edge_decodes_v0).
  - lia.
  - simpl. lia.
Defined.

Lemma sample_serializable_v3 :
  @serializable sample_runtime (VersionedData (_version codec3) (JSNumber 7)).
Proof. vm_compute. reflexivity. Defined.

Lemma bump_needs_migration_witness :
  @versionedDeserialize sample_runtime (setCurrentVersion 4 codec3).2
    (@versionedSerialize sample_runtime codec3 (JSNumber 7)) =
    ([], Throws (MissingMigration (JSNumber 3))).
Proof.
  exact (@bump_needs_migration sample_runtime codec3 (JSNumber 7)
           codec3_in_range sample_serializable_v3).
Defined.

Lemma upgrade_by_one_witness :
  @versionedDeserialize sample_runtime
    (bind (setCurrentVersion 4)
          (fun _ => withTransform (migrations.toVersion 4) add_ten) codec3).2
    (@versionedSerialize sample_runtime codec3 (JSNumber 7)) =
    ([3], Returns (JSNumber 17)).
Proof.
  apply (@upgrade_by_one sample_runtime codec3 add_ten (JSNumber 7)).
  - simpl. lia.
  - exact sample_serializable_v3.
Defined.

(** ** The decorators *)

(** X15.  A migration declared on a class reaches the codecs created for
    that class afterwards: their registry holds it under [toVersion - 1] as
    double arithmetic gives it (which is [toVersion - 1] for [toVersion]
    from -2^53 + 1 up to 2^53), and is at every other key what it would
    have been without the declaration.  Codecs created for another class, or
    for none, are as they would have been without it. *)
Theorem Migration_reaches_its_class version to f target store :
  let before := Double.createVersioned version (Some target) store in
  let after :=
    Double.createVersioned version (Some target) (Migration to f target store) in
  _version after = _version before /\
  _migrations after !! minus_one to = Some f /\
  (forall k, k <> minus_one to -> _migrations after !! k = _migrations before !! k) /\
  (- two53 < to <= two53 -> minus_one to = to - 1) /\
  (forall target',
     target' <> target ->
     Double.createVersioned version (Some target') (Migration to f target store) =
     Double.createVersioned version (Some target') store) /\
  Double.createVersioned version None (Migration to f target store) =
    Double.createVersioned version None store.
Proof.
  intros before after.
  assert (after = Map_set (minus_one to) f before) as ->.
  { unfold after, before, Double.createVersioned, Migration, Map_set.
    rewrite lookup_insert_eq. cbn [_version _migrations].
    f_equal. apply Double_seed_snoc. }
  destruct (Map_set_lookup (minus_one to) f before) as (HV & Hf & Hother).
  split; [done|]. split; [done|]. split; [done|]. split.
  - intros Hto. rewrite minus_one_exact; lia.
  - split; [|done].
    intros target' Hne. unfold Double.createVersioned, Migration.
    by rewrite lookup_insert_ne.
Qed.

Lemma Migration_reaches_its_class_witness :
  _migrations (Double.createVersioned 3 (Some 2%positive) class2_metadata) !! 1 =
    Some add_ten /\
  _migrations (Double.createVersioned 3 (Some 2%positive) class2_metadata) !! 2 =
    Some times_two /\
  Double.createVersioned 3 (Some 1%positive) class2_metadata =
    Double.createVersioned 3 (Some 1%positive) (Migration 3 times_two 2%positive ∅).
Proof.
  destruct (Migration_reaches_its_class 3 2 add_ten 2%positive
              (Migration 3 times_two 2%positive ∅))
    as (_ & Hown & Hkeep & Hexact & Hother & _).
  rewrite Hexact in Hown, Hkeep by (unfold two53; lia).
  split; [exact Hown|]. split.
  - unfold class2_metadata. rewrite (Hkeep 2) by lia. vm_compute. reflexivity.
  - apply Hother. discriminate.
Defined.

Lemma seed_lookup_over mds registry k :
  seed mds registry !! k =
  match last (filter (fun md => MigrationMetadata.toVersion md - 1 = k) mds) with
  | Some md => Some (MigrationMetadata.transform md)
  | None => registry !! k
  end.
Proof.
  induction mds as [|md mds IH] using rev_ind; [done|].
  rewrite seed_snoc, filter_app, filter_cons, filter_nil.
  destruct (decide (MigrationMetadata.toVersion md - 1 = k)) as [->|Hne].
  - by rewrite lookup_insert_eq, last_snoc.
  - by rewrite lookup_insert_ne, app_nil_r.
Qed.

(** Seeding a second time with the same list changes nothing. *)
Lemma seed_twice mds registry :
  seed mds (seed mds registry) = seed mds registry.
Proof.
  apply map_eq. intros k. rewrite (seed_lookup_over mds (seed mds registry)).
  destruct (last _) as [md|] eqn:Hlast; [|done].
  by rewrite seed_lookup_over, Hlast.
Qed.

Lemma replay_cons md mds c :
  replay (md :: mds) c =
  bind (withTransform (migrations.toVersion (MigrationMetadata.toVersion md))
                      (MigrationMetadata.transform md))
       (fun _ => replay mds) c.
Proof. reflexivity. Qed.

Lemma replay_in_range mds c :
  Forall (declared_in_range (_version c)) mds ->
  replay mds c =
    (Ok tt, {| _version := _version c; _migrations := seed mds (_migrations c) |}).
Proof.
  revert c. induction mds as [|md mds IH]; intros c Hall.
  - by destruct c.
  - apply Forall_cons in Hall as [Hmd Hall].
    rewrite replay_cons. unfold bind. rewrite withTransform_unfold, Hmd.
    by rewrite IH.
Qed.

Lemma replay_Ok_inv mds c c' :
  replay mds c = (Ok tt, c') ->
  Forall (declared_in_range (_version c)) mds.
Proof.
  revert c. induction mds as [|md mds IH]; intros c Hok; [done|].
  rewrite replay_cons in Hok. unfold bind in Hok.
  rewrite withTransform_unfold in Hok.
  destruct (out_of_range _ _ _) eqn:E; [done|].
  apply Forall_cons. split; [done|]. by apply (IH _ Hok).
Qed.

Lemma replay_out_of_range before md after c :
  Forall (declared_in_range (_version c)) before ->
  ~ declared_in_range (_version c) md ->
  replay (before ++ md :: after) c =
    (Throw (InvalidMigrationRange (MigrationMetadata.toVersion md - 1)
              (MigrationMetadata.toVersion md) (_version c)),
     {| _version := _version c; _migrations := seed before (_migrations c) |}).
Proof.
  revert c. induction before as [|md' before IH]; intros c Hall Hmd.
  - simpl app. rewrite replay_cons. unfold bind. rewrite withTransform_unfold.
    unfold declared_in_range in Hmd.
    destruct (out_of_range _ _ _); [by destruct c|done].
  - apply Forall_cons in Hall as [Hmd' Hall].
    change ((md' :: before) ++ md :: after) with (md' :: (before ++ md :: after)).
    rewrite replay_cons. unfold bind. rewrite withTransform_unfold, Hmd'.
    by rewrite IH.
Qed.

(** X16.  With a version of at most 2^53, [new] on a class decorated with
    [Versioned(version)] succeeds where every migration declared on the
    class is one the builder accepts under that version, and the codec of
    the new object is then the one [createVersioned] had seeded: the replay
    of the constructor changes nothing. *)
Theorem construct_in_range version target store0 store :
  let seeded := createVersioned version (Some target) store in
  _version seeded <= two53 ->
  Forall (declared_in_range (_version seeded)) (default [] (store !! target)) ->
  construct (Versioned version target store0) store = Ok seeded.
Proof.
  intros seeded _ Hall. unfold Versioned. simpl.
  fold seeded. rewrite (replay_in_range _ seeded Hall).
  f_equal. unfold seeded. simpl. by rewrite seed_twice.
Qed.

(** X17.  With a version of at most 2^53 and every declared [toVersion]
    from -2^53 + 1 up to 2^53, [new] on such a class throws where a
    declared migration is one the builder refuses: the exception is the
    invalid-range error of the first such migration in the order of
    declaration, and there is no object.  [createVersioned] has none the
    less put a migration under the key of the refused one: the refused one
    itself, unless a later declaration names the same [toVersion]. *)
Theorem construct_out_of_range version target store0 store before md after :
  let seeded := createVersioned version (Some target) store in
  store !! target = Some (before ++ md :: after) ->
  _version seeded <= two53 ->
  Forall (fun md' => - two53 < MigrationMetadata.toVersion md' <= two53)
         (md :: after) ->
  Forall (declared_in_range (_version seeded)) before ->
  ~ declared_in_range (_version seeded) md ->
  construct (Versioned version target store0) store =
    Throw (InvalidMigrationRange (MigrationMetadata.toVersion md - 1)
             (MigrationMetadata.toVersion md) (_version seeded)) /\
  is_Some (_migrations seeded !! (MigrationMetadata.toVersion md - 1)) /\
  (Forall (fun md' => MigrationMetadata.toVersion md' <>
                      MigrationMetadata.toVersion md) after ->
   _migrations seeded !! (MigrationMetadata.toVersion md - 1) =
     Some (MigrationMetadata.transform md)).
Proof.
  intros seeded Hstore _ _ Hall Hmd.
  assert (_migrations seeded !! (MigrationMetadata.toVersion md - 1) =
          MigrationMetadata.transform <$>
            last (filter (fun md' => MigrationMetadata.toVersion md' - 1 =
                                     MigrationMetadata.toVersion md - 1)
                         before ++
                  md :: filter (fun md' => MigrationMetadata.toVersion md' - 1 =
                                           MigrationMetadata.toVersion md - 1)
                               after)) as Hlookup.
  { unfold seeded. simpl. rewrite Hstore. simpl.
    rewrite (seed_lookup
               (before ++ md :: after) (MigrationMetadata.toVersion md - 1)).
    rewrite filter_app, filter_cons.
    by destruct (decide _) as [_|Hne]. }
  split; [|split].
  - unfold Versioned. simpl. fold seeded. rewrite Hstore. simpl.
    by rewrite (replay_out_of_range before md after seeded Hall Hmd).
  - rewrite Hlookup, last_app, last_cons.
    by destruct (last (filter _ after)).
  - intros Hlater. rewrite Hlookup.
    assert (filter (fun md' => MigrationMetadata.toVersion md' - 1 =
                               MigrationMetadata.toVersion md - 1) after = [])
      as ->.
    { clear -Hlater. induction after as [|md' after IH]; [done|].
      apply Forall_cons in Hlater as [Hne Hlater].
      rewrite filter_cons. destruct (decide _) as [Heq|_]; [lia|].
      by apply IH. }
    by rewrite last_snoc.
Qed.

Section StaticAndInstance.
Context `{!Runtime}.

(** X18.  Where [new] succeeds with the metadata the decorator has seen, the
    [versionedDeserialize] of the object and the static one of the class
    answer every text alike. *)
Theorem static_and_instance_agree version target store this json :
  construct (Versioned version target store) store = Ok this ->
  versionedDeserialize this json =
  versionedDeserialize (static_codec (Versioned version target store)) json.
Proof.
  unfold Versioned. cbn [construct static_codec].
  set (seeded := createVersioned version (Some target) store).
  set (mds := default [] (store !! target)).
  destruct (replay mds seeded) as [[[]|e] c'] eqn:Hreplay; [|done].
  intros [= <-].
  pose proof (replay_Ok_inv _ _ _ Hreplay) as Hall.
  rewrite (replay_in_range _ seeded Hall) in Hreplay.
  injection Hreplay as <-.
  unfold seeded, mds. simpl. fold mds. by rewrite seed_twice.
Qed.

End StaticAndInstance.

Lemma construct_in_range_witness :
  construct class2 class2_metadata =
    Ok (createVersioned 3 (Some 2%positive) class2_metadata).
Proof.
  apply (construct_in_range 3 2%positive class2_metadata class2_metadata).
  - unfold two53. simpl. lia.
  - change (default [] (class2_metadata !! 2%positive))
      with [MigrationMetadata.mk 3 times_two; MigrationMetadata.mk 2 add_ten].
    constructor; [reflexivity|]. constructor; [reflexivity|]. constructor.
Defined.

Lemma construct_out_of_range_witness :
  construct (Versioned 3 1%positive sample_metadata) sample_metadata =
    Throw (InvalidMigrationRange 0 1 3) /\
  _migrations codec3_seeded !! 0 = Some times_two.
Proof.
  destruct (construct_out_of_range 3 1%positive sample_metadata sample_metadata
              [] (MigrationMetadata.mk 1 times_two)
              [MigrationMetadata.mk 5 add_ten])
    as (Hthrow & _ & Hsame).
  - vm_compute. reflexivity.
  - unfold two53. simpl. lia.
  - constructor; [unfold two53; simpl; lia|].
    constructor; [unfold two53; simpl; lia|]. constructor.
  - constructor.
  - vm_compute. discriminate.
  - split; [exact Hthrow|]. apply Hsame.
    constructor; [simpl; lia|]. constructor.
Defined.

Lemma static_and_instance_agree_witness :
  @versionedDeserialize sample_runtime
    (createVersioned 3 (Some 2%positive) class2_metadata) text_v1 =
  @versionedDeserialize sample_runtime (static_codec class2) text_v1.
Proof.
  apply (@static_and_instance_agree sample_runtime 3 2%positive class2_metadata).
  vm_compute. reflexivity.
Defined.
